(** * torch2trt operator handlers (torch2trt/handlers/ops.py)

    A shallow embedding of the node handlers that translate traced
    PyTorch operations into TensorRT layers, and the properties of the
    handlers stated in the specification.

    The handlers are Python functions that read a process-wide network
    builder, append layers to it, set attributes on those layers, raise
    exceptions, and read or mutate real tensors.  They are embedded as
    computations in a state-and-exception monad: the state holds the
    active network (the list of layers added so far) and the store of
    real tensors; an exception leaves the state as it was when raised. *)

From Stdlib Require Import String ZArith List Bool Lia Floats.
From stdpp Require Import base option list.

Import ListNotations.
Set Warnings "-register-all".
Local Open Scope string_scope.
Local Open Scope list_scope.
Local Open Scope Z_scope.

(** ** Element types and element arithmetic *)

(** The numpy/torch element types that occur. *)
Inductive dtype := float32 | float64 | int32 | int64.

Definition dtype_eqb (a b : dtype) : bool :=
  match a, b with
  | float32, float32 | float64, float64 | int32, int32 | int64, int64 => true
  | _, _ => false
  end.

Definition is_float (d : dtype) : bool :=
  match d with float32 | float64 => true | _ => false end.

(** numpy's result type of an arithmetic operation on two arrays. *)
Definition promote (a b : dtype) : dtype :=
  match a, b with
  | float32, float32 => float32
  | int32, int32 => int32
  | int32, int64 | int64, int32 | int64, int64 => int64
  | _, _ => float64
  end.

(** Result type of an operation that yields floats (true division, sqrt,
    arithmetic with a Python float): float arrays keep their type. *)
Definition to_float (d : dtype) : dtype :=
  if is_float d then d else float64.

(** The arithmetic of array elements and of Python numbers.  The handlers
    never look inside a number: they add, multiply, divide, negate, take
    square roots, compare, and convert between element types.  [astype]
    is the value conversion done by [ndarray.astype] and by
    [np.array(x, dtype=...)]. *)
Class Scalar (F : Type) := {
  of_int : Z -> F;
  f_neg : F -> F;
  f_add : F -> F -> F;
  f_mul : F -> F -> F;
  f_div : F -> F -> F;
  f_sqrt : F -> F;
  f_eqb : F -> F -> bool;
  f_ltb : F -> F -> bool;
  astype : dtype -> F -> F
}.

(** ** numpy arrays *)

Record ndarray (F : Type) := mk_ndarray {
  nd_dtype : dtype;
  nd_shape : list Z;
  nd_data : list F   (* row-major *)
}.
Arguments mk_ndarray {F} _ _ _.
Arguments nd_dtype {F} _.
Arguments nd_shape {F} _.
Arguments nd_data {F} _.

Definition prod_Z (l : list Z) : Z := fold_right Z.mul 1 l.

Section Numpy.
Context {F : Type} `{!Scalar F}.

(** [a.size] *)
Definition nd_size (a : ndarray F) : Z := prod_Z (nd_shape a).

(** [np.array(v, dtype=dt)] for a Python number [v]: a 0-d array. *)
Definition np_array_scalar (v : F) (dt : dtype) : ndarray F :=
  mk_ndarray dt [] [astype dt v].

(** [np.array(a, dtype=dt)] and [a.astype(dt)] for an array [a]. *)
Definition np_astype (a : ndarray F) (dt : dtype) : ndarray F :=
  mk_ndarray dt (nd_shape a) (map (astype dt) (nd_data a)).

(** [a.reshape] to [shape]; the handlers only reshape a 0-d array to
    all-ones shapes, numpy raises ValueError when sizes differ. *)
Definition np_reshape (a : ndarray F) (shape : list Z) : option (ndarray F) :=
  if prod_Z shape =? nd_size a
  then Some (mk_ndarray (nd_dtype a) shape (nd_data a))
  else None.

(** [np.ones_like(a)] *)
Definition np_ones_like (a : ndarray F) : ndarray F :=
  mk_ndarray (nd_dtype a) (nd_shape a)
             (map (fun _ => astype (nd_dtype a) (of_int 1)) (nd_data a)).

(** [-a] *)
Definition np_neg (a : ndarray F) : ndarray F :=
  mk_ndarray (nd_dtype a) (nd_shape a)
             (map (fun x => astype (nd_dtype a) (f_neg x)) (nd_data a)).

(** [np.sqrt(a)] *)
Definition np_sqrt (a : ndarray F) : ndarray F :=
  let dt := to_float (nd_dtype a) in
  mk_ndarray dt (nd_shape a) (map (fun x => astype dt (f_sqrt x)) (nd_data a)).

(** [a + x] for a Python float [x]: the float is converted to the result
    type before the addition. *)
Definition np_add_pyfloat (a : ndarray F) (x : F) : ndarray F :=
  let dt := to_float (nd_dtype a) in
  mk_ndarray dt (nd_shape a)
             (map (fun y => astype dt (f_add y (astype dt x))) (nd_data a)).

(** [a + n] for a Python int [n] *)
Definition np_add_pyint (a : ndarray F) (n : Z) : ndarray F :=
  let dt := nd_dtype a in
  mk_ndarray dt (nd_shape a) (map (fun y => astype dt (f_add y (of_int n))) (nd_data a)).

(** [n / a] for a Python int [n] (true division) *)
Definition np_pyint_div (n : Z) (a : ndarray F) : ndarray F :=
  let dt := to_float (nd_dtype a) in
  mk_ndarray dt (nd_shape a) (map (fun y => astype dt (f_div (of_int n) y)) (nd_data a)).

(** Broadcasting.  Shapes are aligned at their last axes; an axis of
    extent 1 is stretched. *)
Fixpoint bshape_rev (s1 s2 : list Z) : option (list Z) :=
  match s1, s2 with
  | [], s | s, [] => Some s
  | d1 :: r1, d2 :: r2 =>
      match bshape_rev r1 r2 with
      | None => None
      | Some r =>
          if d1 =? d2 then Some (d1 :: r)
          else if d1 =? 1 then Some (d2 :: r)
          else if d2 =? 1 then Some (d1 :: r)
          else None
      end
  end.

Definition broadcast_shapes (s1 s2 : list Z) : option (list Z) :=
  option_map (@rev Z) (bshape_rev (rev s1) (rev s2)).

Fixpoint pieces (n : nat) (c : nat) (data : list F) : list (list F) :=
  match n with
  | O => []
  | S n' => firstn c data :: pieces n' c (skipn c data)
  end.

(** [bcast target src data]: the data of an array of shape [src]
    (already padded with leading 1s to the rank of [target]) stretched
    to shape [target]. *)
Fixpoint bcast (target src : list Z) (data : list F) : list F :=
  match target, src with
  | d :: t, s :: ss =>
      if s =? d
      then concat (map (bcast t ss) (pieces (Z.to_nat s) (Z.to_nat (prod_Z ss)) data))
      else concat (repeat (bcast t ss data) (Z.to_nat d))
  | _, _ => data
  end.

Definition pad_shape (rank : nat) (s : list Z) : list Z :=
  repeat 1 (rank - length s)%nat ++ s.

Definition broadcast_to (target : list Z) (a : ndarray F) : list F :=
  bcast target (pad_shape (length target) (nd_shape a)) (nd_data a).

(** An elementwise binary operation on two arrays with result type
    [dt]; [None] when the shapes do not broadcast (numpy: ValueError). *)
Definition np_binop (op : F -> F -> F) (dt : dtype) (a b : ndarray F)
  : option (ndarray F) :=
  match broadcast_shapes (nd_shape a) (nd_shape b) with
  | None => None
  | Some s =>
      Some (mk_ndarray dt s
              (map (fun p => astype dt (op (fst p) (snd p)))
                   (combine (broadcast_to s a) (broadcast_to s b))))
  end.

(** [a / b], [a * b], [a + b] *)
Definition np_div (a b : ndarray F) :=
  np_binop f_div (to_float (promote (nd_dtype a) (nd_dtype b))) a b.
Definition np_mul (a b : ndarray F) :=
  np_binop f_mul (promote (nd_dtype a) (nd_dtype b)) a b.
Definition np_add (a b : ndarray F) :=
  np_binop f_add (promote (nd_dtype a) (nd_dtype b)) a b.
End Numpy.

(** ** Values, layers and the interpreter state *)

(** A symbolic tensor: a handle into the network under construction.
    Its shape excludes the batch axis.  [it_producer] is the index of the
    layer whose output it is, or [None] for a network input. *)
Record ITensor := mk_ITensor {
  it_producer : option nat;
  it_shape : list Z
}.

(** Real tensors are objects: a value holds a reference into the tensor
    store, so that in-place operations are visible through every alias. *)
Definition ref := nat.

(** What a handler finds in its input list. *)
Inductive value (F : Type) :=
| VNone
| VBool (b : bool)
| VInt (n : Z)
| VFloat (x : F)
| VList (l : list (value F))
| VTensor (r : ref)
| VTrt (t : ITensor).
Arguments VNone {F}.
Arguments VBool {F} _.
Arguments VInt {F} _.
Arguments VFloat {F} _.
Arguments VList {F} _.
Arguments VTensor {F} _.
Arguments VTrt {F} _.

(** [trt.Weights]: empty, or wrapping a host array. *)
Inductive Weights (F : Type) :=
| Weights_empty
| Weights_of (a : ndarray F).
Arguments Weights_empty {F}.
Arguments Weights_of {F} _.

Inductive ElementWiseOperation := SUM | SUB | PROD | DIV.
Inductive ScaleMode := UNIFORM | CHANNEL.
Inductive ActivationType := RELU.
Inductive PoolingType := MAX | AVERAGE.
Inductive ReduceOperation := ReduceSUM | ReduceMAX.

(** The layer-construction calls the embedded handlers issue, with the
    arguments as passed. *)
Inductive layer_call (F : Type) :=
| Convolution (input : value F) (num_output_maps : Z) (kernel_shape : list Z)
              (kernel bias : Weights F)
| Deconvolution (input : value F) (num_output_maps : Z) (kernel_shape : list Z)
                (kernel bias : Weights F)
| Scale (input : value F) (mode : ScaleMode) (shift scale power : Weights F)
| Activation (input : value F) (type : ActivationType)
| Pooling (input : value F) (type : PoolingType) (window_size : value F)
| Slice (input : value F) (start shape stride : list Z)
| ElementWise (input1 input2 : value F) (op : ElementWiseOperation)
| Constant (shape : list Z) (weights : Weights F)
| Reduce (input : value F) (op : ReduceOperation) (axes : Z) (keep_dims : bool)
| Shuffle (input : value F)
| FullyConnected (input : value F) (num_outputs : Z) (kernel bias : Weights F)
| Concatenation (inputs : value F)
| Padding (input : value F) (pre_padding post_padding : list (value F)).
Arguments Convolution {F} _ _ _ _ _.
Arguments Deconvolution {F} _ _ _ _ _.
Arguments Scale {F} _ _ _ _ _.
Arguments Activation {F} _ _.
Arguments Pooling {F} _ _ _.
Arguments Slice {F} _ _ _ _.
Arguments ElementWise {F} _ _ _.
Arguments Constant {F} _ _.
Arguments Reduce {F} _ _ _ _.
Arguments Shuffle {F} _.
Arguments FullyConnected {F} _ _ _ _.
Arguments Concatenation {F} _.
Arguments Padding {F} _ _ _.

(** A layer of the network: the call that built it and the attributes
    assigned afterwards ([layer.stride = ...]), latest first. *)
Record layer (F : Type) := mk_layer {
  l_call : layer_call F;
  l_attrs : list (string * value F)
}.
Arguments mk_layer {F} _ _.
Arguments l_call {F} _.
Arguments l_attrs {F} _.

(** The Python exceptions the embedded code can raise. *)
Inductive exn :=
| AssertionError (msg : string)
| NotImplementedError
| ZeroDivisionError
| ValueError
| TypeError
| IndexError
| AttributeError
| OverflowError.

Inductive result (A : Type) :=
| Ok (a : A)
| Raise (e : exn).
Arguments Ok {A} _.
Arguments Raise {A} _.

(** The state a handler runs in: the active network ([None] when no
    conversion is under way) and the store of real tensors. *)
Record state (F : Type) := mk_state {
  network : option (list (layer F));
  tensors : list (ndarray F)
}.
Arguments mk_state {F} _ _.
Arguments network {F} _.
Arguments tensors {F} _.

(** The external libraries.  The numeric kernels of the tensor library
    used by the fallback paths, and the shape inference of the engine
    builder, are not part of this repository; the handlers are embedded
    over any behaviour of them. *)
Class Torch (F : Type) := {
  (** an out-of-place operation, by name, on the given arguments *)
  torch_fn : string -> list (value F) -> list (ndarray F) -> result (ndarray F);
  (** [Tensor.max(dim, keepdim)]: values and indices *)
  torch_max : ndarray F -> value F -> bool -> result (ndarray F * ndarray F)
}.

Class TensorRT (F : Type) := {
  (** shape of the first output of a layer *)
  output_shape : layer F -> list Z
}.

(** numpy's integer arithmetic, as far as the handlers use it:
    [left_shift_uint32 a n] is [arr << n] for a 0-d uint32 array [arr]
    holding [a] and a non-negative Python int [n], as the integer the
    result holds.  The type in which numpy computes the shift depends on
    its promotion rules: up to NumPy 1.26 a 0-d uint32 array and a Python
    int are promoted to int64; from NumPy 2 on the result stays uint32
    and the Python int is converted to uint32, which raises
    OverflowError when it does not fit.  All versions agree while the
    shifted bit stays inside 32 bits, which is all that is required
    here. *)
Class NumPy := {
  left_shift_uint32 : Z -> Z -> result Z;
  left_shift_small :
    forall n : Z, 0 <= n < 32 -> left_shift_uint32 1 n = Ok (2 ^ n)
}.

(** ** The monad of handler computations *)

Definition M (F A : Type) : Type := state F -> result A * state F.

Definition ret {F A : Type} (a : A) : M F A := fun s => (Ok a, s).

Definition bind {F A B : Type} (m : M F A) (k : A -> M F B) : M F B :=
  fun s =>
    match m s with
    | (Ok a, s') => k a s'
    | (Raise e, s') => (Raise e, s')
    end.

Definition raise {F A : Type} (e : exn) : M F A := fun s => (Raise e, s).

Declare Scope py_scope.
Delimit Scope py_scope with py.
Notation "'do' x <- c1 ; c2" := (bind c1 (fun x => c2))
  (at level 10, x name, c1 at level 100, c2 at level 200) : py_scope.
Notation "'do' ' p <- c1 ; c2" := (bind c1 (fun p => c2))
  (at level 10, p pattern, c1 at level 100, c2 at level 200) : py_scope.
Notation "'run' c1 ; c2" := (bind c1 (fun _ => c2))
  (at level 10, c1 at level 100, c2 at level 200) : py_scope.
Local Open Scope py_scope.

(** [assert b, msg] *)
Definition assert_ {F : Type} (b : bool) (msg : string) : M F unit :=
  if b then ret tt else raise (AssertionError msg).

Definition lift_option {F A : Type} (e : exn) (o : option A) : M F A :=
  match o with Some a => ret a | None => raise e end.

(** A list comprehension whose element expression may raise. *)
Fixpoint mapM {F A B : Type} (f : A -> M F B) (l : list A) : M F (list B) :=
  match l with
  | [] => ret []
  | x :: r => do y <- f x; do ys <- mapM f r; ret (y :: ys)
  end.

(** ** Python operations on values *)

Section Python.
Context {F : Type} `{!Scalar F}.

Definition is_tensor (v : value F) : bool :=
  match v with VTensor _ => true | _ => false end.

Definition is_trt (v : value F) : bool :=
  match v with VTrt _ => true | _ => false end.

Definition is_none (v : value F) : bool :=
  match v with VNone => true | _ => false end.

(** [bool(v)] for the flags the handlers test. *)
Definition truthy (v : value F) : bool :=
  match v with
  | VNone => false
  | VBool b => b
  | VInt n => negb (n =? 0)
  | VFloat x => negb (f_eqb x (of_int 0))
  | VList l => match l with [] => false | _ => true end
  | VTensor _ | VTrt _ => true
  end.

(** [v == n] for an int literal [n]. *)
Definition eq_int (v : value F) (n : Z) : bool :=
  match v with
  | VInt m => m =? n
  | VBool b => (if b then 1 else 0) =? n
  | VFloat x => f_eqb x (of_int n)
  | _ => false
  end.

(** [v > n] for an int literal [n]; Python raises TypeError when [v] is
    not a number. *)
Definition gt_int (v : value F) (n : Z) : M F bool :=
  match v with
  | VInt m => ret (n <? m)
  | VBool b => ret (n <? (if b then 1 else 0))
  | VFloat x => ret (f_ltb (of_int n) x)
  | _ => raise TypeError
  end.

(** The integer an index or extent argument stands for. *)
Definition as_int (v : value F) : M F Z :=
  match v with
  | VInt m => ret m
  | VBool b => ret (if b then 1 else 0)
  | _ => raise TypeError
  end.

(** Iterating over [v] ([for e in v], [tuple(v)], [zip], [len]). *)
Definition as_list (v : value F) : M F (list (value F)) :=
  match v with
  | VList l => ret l
  | _ => raise TypeError
  end.

(** [a // b] and [a % b] on ints. *)
Definition floordiv (a b : Z) : M F Z :=
  if b =? 0 then raise ZeroDivisionError else ret (a / b).

Definition pymod (a b : Z) : M F Z :=
  if b =? 0 then raise ZeroDivisionError else ret (a mod b).

(** [l[i]] on a Python list: negative indices count from the end. *)
Definition norm_index {A : Type} (l : list A) (i : Z) : option nat :=
  let n := Z.of_nat (length l) in
  if (0 <=? i) && (i <? n) then Some (Z.to_nat i)
  else if (- n <=? i) && (i <? 0) then Some (Z.to_nat (n + i))
  else None.

Definition getitem {A : Type} (l : list A) (i : Z) : M F A :=
  match norm_index l i with
  | Some k => lift_option IndexError (nth_error l k)
  | None => raise IndexError
  end.

(** [l[i] = x] *)
Definition setitem {A : Type} (l : list A) (i : Z) (x : A) : M F (list A) :=
  match norm_index l i with
  | Some k => ret (<[k := x]> l)
  | None => raise IndexError
  end.

(** ** The boundary to the engine builder and the tensor library *)

(** Modelled from the spec: [current_network] of torch2trt.core, which
    returns the builder being populated, or None. *)
Definition current_network : M F (option (list (layer F))) :=
  fun s => (Ok (network s), s).

Definition not_None {A : Type} (o : option A) : bool :=
  match o with Some _ => true | None => false end.

(** Modelled from the spec: [has_trt_tensor] of torch2trt.core, true
    when an element of the input list, or of a list nested one level in
    it, is a symbolic tensor. *)
Definition has_trt_tensor (inputs : list (value F)) : bool :=
  existsb (fun v => match v with
                    | VTrt _ => true
                    | VList l => existsb is_trt l
                    | _ => false
                    end) inputs.

(** Modelled from the spec: a layer-construction call of the engine
    builder appends the layer to the active network and returns it; the
    handle returned here is the layer's position. *)
Definition add_layer (c : layer_call F) : M F nat :=
  fun s =>
    match network s with
    | Some ls => (Ok (length ls), mk_state (Some (ls ++ [mk_layer c []])) (tensors s))
    | None => (Raise AttributeError, s)
    end.

(** [layer.name = v] *)
Definition set_attr (i : nat) (name : string) (v : value F) : M F unit :=
  fun s =>
    match network s with
    | Some ls =>
        (Ok tt,
         mk_state (Some (alter (fun l => mk_layer (l_call l) ((name, v) :: l_attrs l)) i ls))
                  (tensors s))
    | None => (Raise AttributeError, s)
    end.

(** [layer.get_output(0)] *)
Definition get_output `{!TensorRT F} (i : nat) : M F (value F) :=
  fun s =>
    match network s with
    | Some ls =>
        match ls !! i with
        | Some l => (Ok (VTrt (mk_ITensor (Some i) (output_shape l))), s)
        | None => (Raise IndexError, s)
        end
    | None => (Raise AttributeError, s)
    end.

(** The array behind a real tensor; [t.detach().cpu().numpy()]. *)
Definition numpy (v : value F) : M F (ndarray F) :=
  fun s =>
    match v with
    | VTensor r =>
        match tensors s !! r with
        | Some a => (Ok a, s)
        | None => (Raise AttributeError, s)
        end
    | _ => (Raise AttributeError, s)
    end.

(** [v.shape] of a real or symbolic tensor. *)
Definition shape_of (v : value F) : M F (list Z) :=
  match v with
  | VTrt t => ret (it_shape t)
  | VTensor _ => do a <- numpy v; ret (nd_shape a)
  | _ => raise AttributeError
  end.

(** A new real tensor holding [a]. *)
Definition new_tensor (a : ndarray F) : M F (value F) :=
  fun s => (Ok (VTensor (length (tensors s))),
            mk_state (network s) (tensors s ++ [a])).

(** An out-of-place operation of the tensor library: the result is a
    new tensor. *)
Definition torch_call `{!Torch F} (name : string) (args : list (value F)) : M F (value F) :=
  fun s =>
    match torch_fn name args (tensors s) with
    | Ok a => new_tensor a s
    | Raise e => (Raise e, s)
    end.

(** An in-place operation of the tensor library on [target] (a method or
    function with a trailing underscore, or an augmented assignment): the
    result is written into the storage of [target], which is returned. *)
Definition torch_call_inplace `{!Torch F} (name : string) (target : value F)
  (args : list (value F)) : M F (value F) :=
  fun s =>
    match target with
    | VTensor r =>
        match tensors s !! r with
        | Some _ =>
            match torch_fn name args (tensors s) with
            | Ok a => (Ok (VTensor r), mk_state (network s) (<[r := a]> (tensors s)))
            | Raise e => (Raise e, s)
            end
        | None => (Raise AttributeError, s)
        end
    | _ => (Raise AttributeError, s)
    end.

End Python.

(** ** The handlers of torch2trt/handlers/ops.py *)

Section Handlers.
Context {F : Type} `{!Scalar F} `{!Torch F} `{!TensorRT F} {np : NumPy}.

(** [a, b = l] and its wider forms: ValueError unless the lengths agree. *)
Definition unpack2 {A : Type} (l : list A) : M F (A * A) :=
  match l with [a; b] => ret (a, b) | _ => raise ValueError end.

Definition unpack3 {A : Type} (l : list A) : M F (A * A * A) :=
  match l with [a; b; c] => ret (a, b, c) | _ => raise ValueError end.

Definition unpack4 {A : Type} (l : list A) : M F (A * A * A * A) :=
  match l with [a; b; c; d] => ret (a, b, c, d) | _ => raise ValueError end.

Definition unpack5 {A : Type} (l : list A) : M F (A * A * A * A * A) :=
  match l with [a; b; c; d; e] => ret (a, b, c, d, e) | _ => raise ValueError end.

(** [l[i:j]] for literal bounds *)
Definition py_slice {A : Type} (l : list A) (i j : nat) : list A :=
  firstn (j - i) (skipn i l).

Definition lift_result {A : Type} (r : result A) : M F A :=
  match r with Ok a => ret a | Raise e => raise e end.

(** [a + eps] for the number [eps] of the input list *)
Definition np_add_py (a : ndarray F) (eps : value F) : M F (ndarray F) :=
  match eps with
  | VFloat x => ret (np_add_pyfloat a x)
  | VInt n => ret (np_add_pyint a n)
  | VBool b => ret (np_add_pyint a (if b then 1 else 0))
  | _ => raise TypeError
  end.

(** aten::_convolution *)
Definition aten_convolution (inputs : list (value F)) : M F (list (value F)) :=
  do '(inp, weight, bias) <- unpack3 (py_slice inputs 0 3);
  do '(stride, pad, dilation) <- unpack3 (py_slice inputs 3 6);
  do '(transposed, output_padding, groups) <- unpack3 (py_slice inputs 6 9);
  do net <- current_network;
  if not_None net && has_trt_tensor inputs then
    do opad <- as_list output_padding;
    run assert_ (forallb (fun e => eq_int e 0) opad)
                "tensor rt don't support out padding";
    do wshape <- shape_of weight;
    do '(O', ksize) <-
      match wshape with
      | d0 :: d1 :: ksize =>
          do g <- as_int groups;
          if truthy transposed
          then ret (d1 * g, ksize)   (* I, O_groups, *ksize; O = O_groups * groups *)
          else ret (d0, ksize)       (* O, I_groups, *ksize; I = I_groups * groups *)
      | _ => raise ValueError
      end;
    let ndim := length ksize in
    run assert_ (Nat.eqb ndim 2) "tensorrt only support 2d conv";
    do weight <- numpy weight;
    do bias <- (if is_none bias then ret Weights_empty
                else do b <- numpy bias; ret (Weights_of b));
    do inp0 <- getitem inputs 0;
    do conv <-
      (if truthy transposed
       then add_layer (Deconvolution inp0 O' ksize (Weights_of weight) bias)
       else
         do conv <- add_layer (Convolution inp0 O' ksize (Weights_of weight) bias);
         do dil <- as_list dilation;
         run set_attr conv "dilation" (VList dil);
         ret conv);
    do strd <- as_list stride;
    run set_attr conv "stride" (VList strd);
    do padl <- as_list pad;
    run set_attr conv "padding" (VList padl);
    run set_attr conv "num_groups" groups;
    do output <- get_output conv;
    ret [output]
  else
    do in3 <- getitem inputs 3;
    do l3 <- as_list in3;
    run assert_ (Nat.eqb (length l3) 2) "";
    do res <-
      (if truthy transposed
       then torch_call "conv_transpose2d"
              [inp; weight; bias; stride; pad; output_padding; groups; dilation]
       else torch_call "conv2d" [inp; weight; bias; stride; pad; dilation; groups]);
    ret [res].

(** aten::batch_norm *)
Definition aten_batch_norm (inputs : list (value F)) : M F (list (value F)) :=
  do '(inp, weight, bias, running_mean, running_var) <- unpack5 (py_slice inputs 0 5);
  do '(training, momentum, eps) <- unpack3 (py_slice inputs 5 8);
  do net <- current_network;
  if not_None net && has_trt_tensor inputs then
    do running_mean <- numpy running_mean;
    do running_var <- numpy running_var;
    do weight <- numpy weight;
    do bias <- numpy bias;
    (* shift = (-running_mean / np.sqrt(running_var + eps)) * weight + bias *)
    do ve <- np_add_py running_var eps;
    do q <- lift_option ValueError (np_div (np_neg running_mean) (np_sqrt ve));
    do qw <- lift_option ValueError (np_mul q weight);
    do shift <- lift_option ValueError (np_add qw bias);
    (* scale = weight / np.sqrt(running_var + eps) *)
    do ve' <- np_add_py running_var eps;
    do scale <- lift_option ValueError (np_div weight (np_sqrt ve'));
    do bn <- add_layer (Scale inp CHANNEL (Weights_of shift) (Weights_of scale)
                              (Weights_of (np_ones_like shift)));
    do output <- get_output bn;
    ret [output]
  else
    do res <- torch_call "batch_norm"
                [inp; running_mean; running_var; weight; bias;
                 VBool (truthy training); momentum; eps];
    ret [res].

(** aten::relu_ *)
Definition aten_relu_ (inputs : list (value F)) : M F (list (value F)) :=
  do net <- current_network;
  if not_None net && has_trt_tensor inputs then
    do inp0 <- getitem inputs 0;
    do act <- add_layer (Activation inp0 RELU);
    do output <- get_output act;
    ret [output]
  else
    do inp0 <- getitem inputs 0;
    do res <- torch_call_inplace "relu" inp0 [inp0];
    ret [res].

(** aten::relu *)
Definition aten_relu (inputs : list (value F)) : M F (list (value F)) :=
  do net <- current_network;
  if not_None net then
    do inp0 <- getitem inputs 0;
    do act <- add_layer (Activation inp0 RELU);
    do output <- get_output act;
    ret [output]
  else
    do inp0 <- getitem inputs 0;
    do res <- torch_call "relu" [inp0];
    ret [res].

(** aten::max_pool2d *)
Definition aten_max_pool2d (inputs : list (value F)) : M F (list (value F)) :=
  do inp <- getitem inputs 0;
  do '(ksize, stride, pad, dilation) <- unpack4 (py_slice inputs 1 5);
  do net <- current_network;
  if not_None net && has_trt_tensor inputs then
    do layer <- add_layer (Pooling inp MAX ksize);
    run set_attr layer "stride" stride;
    run set_attr layer "padding" pad;
    do dil <- as_list dilation;
    run assert_ (forallb (fun b => eq_int b 1) dil)
                "trt pool don't support dilation";
    do output <- get_output layer;
    ret [output]
  else
    do res <- torch_call "max_pool2d" [inp; ksize; stride; pad; dilation];
    ret [res].

(** aten::adaptive_avg_pool2d *)
Definition aten_adaptive_avg_pool2d (inputs : list (value F)) : M F (list (value F)) :=
  do inp <- getitem inputs 0;
  do ksize <- getitem inputs 1;
  do net <- current_network;
  if not_None net && has_trt_tensor inputs then
    do shape <- shape_of inp;
    let inp_shape := skipn 1 shape in
    do targets <- as_list ksize;
    (* ksize = [i // k for i, k in zip(inp_shape, ksize)] *)
    do ksize <- mapM (fun '(i, k) => do k <- as_int k; floordiv i k)
                     (combine inp_shape targets);
    (* assert all([i % k == 0 for i, k in zip(inp_shape, ksize)]) *)
    do rems <- mapM (fun '(i, k) => do r <- pymod i k; ret (r =? 0))
                    (combine inp_shape ksize);
    run assert_ (forallb (fun b => b) rems) "";
    do layer <- add_layer (Pooling inp AVERAGE (VList (map VInt ksize)));
    do output <- get_output layer;
    ret [output]
  else
    do res <- torch_call "adaptive_avg_pool2d" [inp; ksize];
    ret [res].

(** _trt_torch_slice *)
Definition _trt_torch_slice (inp dim start end_ step : value F) : M F (value F) :=
  do shape <- shape_of inp;
  let ndim := length shape in
  (* after the initialisation loop *)
  let starts := repeat 0 ndim in
  let out_shapes := shape in
  let steps := repeat 1 ndim in
  do dim <- as_int dim;
  do start <- as_int start;
  do end_ <- as_int end_;
  do step <- as_int step;
  do starts <- setitem starts (dim - 1) start;
  do extent <- getitem shape (dim - 1);
  do out_shapes <- setitem out_shapes (dim - 1) (Z.min end_ extent - start);
  do steps <- setitem steps (dim - 1) step;
  do layer <- add_layer (Slice inp starts out_shapes steps);
  get_output layer.

(** aten::slice *)
Definition aten_slice (inputs : list (value F)) : M F (list (value F)) :=
  do '(inp, dim, start, end_, step) <- unpack5 inputs;
  do net <- current_network;
  if not_None net && has_trt_tensor inputs then
    do full_batch <-
      (if eq_int dim 0 then
         do full <- (if eq_int start 0 && eq_int step 1
                     then gt_int end_ 100000000
                     else ret false);
         if full then ret true
         else
           do pos <- gt_int dim 0;
           run assert_ pos "tensorrt don't support batch axis operation";
           ret false
       else ret false);
    if (full_batch : bool) then ret [inp]
    else
      run assert_ (eq_int step 1) "";
      do output <- _trt_torch_slice inp dim start end_ step;
      ret [output]
  else
    (* slices = [slice(None, None, None) for _ in range(dim + 1)];
       slices[dim] = slice_ *)
    do d <- as_int dim;
    if d <? 0 then raise IndexError
    else
      do res <- torch_call "getitem" [inp; dim; start; end_; step];
      ret [res].

(** try_convert_to_constant *)
Definition ref_shape_of (inputs : list (value F)) : option (list Z) :=
  fold_left (fun acc inp => match inp with
                            | VTrt t => Some (it_shape t)
                            | _ => acc
                            end) inputs None.

Definition try_convert_to_constant (inputs : list (value F)) : M F (list (value F)) :=
  let ref_shape := ref_shape_of inputs in
  mapM (fun inp =>
          if is_tensor inp then
            do a <- numpy inp;
            let a := if dtype_eqb (nd_dtype a) float64 then np_astype a float32 else a in
            do a <- (if Nat.eqb (length (nd_shape a)) 0 then
                       (* inp.reshape of len(ref_shape) ones, unpacked *)
                       match ref_shape with
                       | Some [] => raise TypeError   (* reshape() without a shape *)
                       | Some rs => lift_option ValueError
                                      (np_reshape a (repeat 1 (length rs)))
                       | None => raise TypeError   (* len(None) *)
                       end
                     else ret a);
            do layer <- add_layer (Constant (nd_shape a) (Weights_of a));
            get_output layer
          else ret inp) inputs.

Definition trt_op (op : string) : option ElementWiseOperation :=
  if (op =? "add")%string then Some SUM
  else if (op =? "sub")%string then Some SUB
  else if (op =? "mul")%string then Some PROD
  else if (op =? "div")%string then Some DIV
  else None.

(** _scale_or_elementwise *)
Definition _scale_or_elementwise (lfs rfs : value F) (op : string) : M F (value F) :=
  match trt_op op with
  | None => raise (AssertionError "")   (* assert op in trt_op *)
  | Some eop =>
      run assert_ (negb (is_tensor lfs && is_tensor rfs)) "";
      if is_trt lfs && is_trt rfs then
        do layer <- add_layer (ElementWise lfs rfs eop);
        get_output layer
      else
        do layer <-
          (if is_tensor rfs then
             do val <- numpy rfs;
             let main := lfs in
             let scale := val in
             if nd_size val =? 1 then
               (* use scale implementation *)
               do '(shift, scale) <-
                 (if (op =? "add")%string then
                    ret (Weights_of (np_astype scale float32),
                         Weights_of (np_array_scalar (of_int 1) float32))
                  else if (op =? "sub")%string then
                    ret (Weights_of (np_astype (np_neg scale) float32),
                         Weights_of (np_array_scalar (of_int 1) float32))
                  else if (op =? "mul")%string then
                    ret (Weights_of (np_array_scalar (of_int 0) float32),
                         Weights_of (np_astype scale float32))
                  else if (op =? "div")%string then
                    ret (Weights_of (np_array_scalar (of_int 0) float32),
                         Weights_of (np_astype (np_pyint_div 1 scale) float32))
                  else raise NotImplementedError);
               let power := Weights_of (np_array_scalar (of_int 1) float32) in
               add_layer (Scale main UNIFORM shift scale power)
             else
               do consts <- try_convert_to_constant [lfs; rfs];
               do '(lfs, rfs) <- unpack2 consts;
               add_layer (ElementWise lfs rfs eop)
           else
             do consts <- try_convert_to_constant [lfs; rfs];
             do '(lfs, rfs) <- unpack2 consts;
             add_layer (ElementWise lfs rfs eop));
        get_output layer
  end.

(** aten::mul *)
Definition aten_mul (inputs : list (value F)) : M F (list (value F)) :=
  do '(lfs, rfs) <- unpack2 inputs;
  do net <- current_network;
  if not_None net && has_trt_tensor inputs then
    do output <- _scale_or_elementwise lfs rfs "mul";
    ret [output]
  else
    do res <- torch_call "mul" [lfs; rfs];
    ret [res].

(** aten::mul_ *)
Definition aten_mul_ (inputs : list (value F)) : M F (list (value F)) :=
  do '(lfs, rfs) <- unpack2 inputs;
  do net <- current_network;
  if not_None net && has_trt_tensor inputs then
    do output <- _scale_or_elementwise lfs rfs "mul";
    ret [output]
  else
    (* lfs *= rfs: in place on a tensor, a new value otherwise *)
    do lfs <- (if is_tensor lfs
               then torch_call_inplace "mul" lfs [lfs; rfs]
               else torch_call "mul" [lfs; rfs]);
    ret [lfs].

(** aten::add_ *)
Definition aten_add_ (inputs : list (value F)) : M F (list (value F)) :=
  do '(lfs, rfs, alpha) <- unpack3 inputs;
  do net <- current_network;
  run assert_ (eq_int alpha 1) "";
  if not_None net && has_trt_tensor inputs then
    do output <- _scale_or_elementwise lfs rfs "add";
    ret [output]
  else
    do lfs <- torch_call_inplace "add" lfs [lfs; rfs];
    ret [lfs].

(** aten::add *)
Definition aten_add (inputs : list (value F)) : M F (list (value F)) :=
  do '(lfs, rfs, alpha) <- unpack3 inputs;
  run assert_ (eq_int alpha 1) "";
  do net <- current_network;
  if not_None net && has_trt_tensor inputs then
    do output <- _scale_or_elementwise lfs rfs "add";
    ret [output]
  else
    do res <- torch_call "add" [lfs; rfs];
    ret [res].

(** aten::div *)
Definition aten_div (inputs : list (value F)) : M F (list (value F)) :=
  do '(lfs, rfs) <- unpack2 inputs;
  do net <- current_network;
  if not_None net && has_trt_tensor inputs then
    do output <- _scale_or_elementwise lfs rfs "div";
    ret [output]
  else
    do res <- torch_call "div" [lfs; rfs];
    ret [res].

(** aten::sub *)
Definition aten_sub (inputs : list (value F)) : M F (list (value F)) :=
  do '(lfs, rfs, alpha) <- unpack3 inputs;
  run assert_ (eq_int alpha 1) "";
  do net <- current_network;
  if not_None net && has_trt_tensor inputs then
    do output <- _scale_or_elementwise lfs rfs "sub";
    ret [output]
  else
    do res <- torch_call "sub" [lfs; rfs];
    ret [res].

(** The loop of _axes_to_trt_axis, from the accumulator [res]:
    [res = np.bitwise_or(res, bit << (ax - 1))] with
    [bit = np.array(1, dtype=np.uint32)].  The accumulator is the integer
    the array holds; on it the bitwise or of numpy's unsigned and signed
    types is [Z.lor]. *)
Fixpoint axes_loop (axes : list (value F)) (res : Z) : M F Z :=
  match axes with
  | [] => ret res
  | ax :: rest =>
      do pos <- gt_int ax 0;
      run assert_ pos "";
      do a <- as_int ax;
      do shifted <- lift_result (left_shift_uint32 1 (a - 1));
      axes_loop rest (Z.lor res shifted)
  end.

(** _axes_to_trt_axis *)
Definition _axes_to_trt_axis (axes : list (value F)) (ndim : nat) : M F Z :=
  axes_loop axes 0.

(** aten::sum *)
Definition aten_sum (inputs : list (value F)) : M F (list (value F)) :=
  do '(inp, axes, keepdim) <- unpack3 inputs;
  do net <- current_network;
  if not_None net && has_trt_tensor inputs then
    do shape <- shape_of inp;
    do axl <- as_list axes;
    do axis_trt <- _axes_to_trt_axis axl (length shape);
    do layer <- add_layer (Reduce inp ReduceSUM axis_trt (truthy keepdim));
    do output <- get_output layer;
    ret [output]
  else
    do axl <- as_list axes;
    do res <- torch_call "sum" [inp; VList axl; VBool (truthy keepdim)];
    ret [res].

(** aten::max *)
Definition aten_max (inputs : list (value F)) : M F (list (value F)) :=
  do '(inp, dim, keepdim) <- unpack3 inputs;
  do net <- current_network;
  if not_None net && has_trt_tensor inputs then
    do shape <- shape_of inp;
    do axis_trt <- _axes_to_trt_axis [dim] (length shape);
    do layer <- add_layer (Reduce inp ReduceMAX axis_trt (truthy keepdim));
    do output <- get_output layer;
    ret [output; VNone]
  else
    (* [*inp.max(dim, keepdim=bool(keepdim))] *)
    do a <- numpy inp;
    do '(values, indices) <- lift_result (torch_max a dim (truthy keepdim));
    do values <- new_tensor values;
    do indices <- new_tensor indices;
    ret [values; indices].

End Handlers.

(** ** The remaining handlers *)

Section MoreHandlers.
Context {F : Type} `{!Scalar F} `{!Torch F} `{!TensorRT F}.

(** Modelled from the spec: [print_inputs] of torch2trt.utils prints its
    argument and returns nothing. *)
Definition print_inputs (inputs : list (value F)) : M F unit := ret tt.

(** [l.insert(i, x)]: an index past the end appends, a negative index
    counts from the end and stops at the front. *)
Definition py_insert {A : Type} (l : list A) (i : Z) (x : A) : list A :=
  let n := Z.of_nat (length l) in
  let k := Z.to_nat (if i <? 0 then Z.max 0 (n + i) else Z.min i n) in
  firstn k l ++ x :: skipn k l.

(** aten::view *)
Definition aten_view (inputs : list (value F)) : M F (list (value F)) :=
  run assert_ (Nat.eqb (length inputs) 2) "";
  do net <- current_network;
  if not_None net && has_trt_tensor inputs then
    do target <- getitem inputs 1;
    do target <- as_list target;
    let shape := skipn 1 target in
    let shape := if Nat.eqb (length shape) 1 then shape ++ [VInt 1; VInt 1] else shape in
    do inp0 <- getitem inputs 0;
    do layer <- add_layer (Shuffle inp0);
    run set_attr layer "reshape_dims" (VList shape);
    do output <- get_output layer;
    ret [output]
  else
    do inp0 <- getitem inputs 0;
    do target <- getitem inputs 1;
    do res <- torch_call "view" [inp0; target];
    ret [res].

(** aten::avg_pool2d *)
Definition aten_avg_pool2d (inputs : list (value F)) : M F (list (value F)) :=
  do inp <- getitem inputs 0;
  do '(ksize, stride, pad, ceil_mode, count_include_pad) <- unpack5 (py_slice inputs 1 6);
  do net <- current_network;
  if not_None net && has_trt_tensor inputs then
    do layer <- add_layer (Pooling inp AVERAGE ksize);
    run set_attr layer "stride" stride;
    run set_attr layer "padding" pad;
    run set_attr layer "average_count_excludes_padding"
                 (VBool (negb (truthy count_include_pad)));
    do output <- get_output layer;
    ret [output]
  else
    do inp <- getitem inputs 0;
    do '(ksize, stride, pad, ceil_mode) <- unpack4 (py_slice inputs 1 5);
    do res <- torch_call "avg_pool2d"
                [inp; ksize; stride; pad; VBool (truthy ceil_mode); count_include_pad];
    ret [res].

(** aten::dropout *)
Definition aten_dropout (inputs : list (value F)) : M F (list (value F)) :=
  do inp <- getitem inputs 0;
  do net <- current_network;
  if not_None net && has_trt_tensor inputs then
    do inp0 <- getitem inputs 0;
    ret [inp0]
  else
    do '(rate, training) <- unpack2 (py_slice inputs 1 3);
    do res <- torch_call "dropout2d" [inp; rate; VBool (truthy training)];
    ret [res].

(** aten::addmm *)
Definition aten_addmm (inputs : list (value F)) : M F (list (value F)) :=
  do '(mat_to_add, mat1, mat2) <- unpack3 (py_slice inputs 0 3);
  do '(beta, alpha) <- unpack2 (py_slice inputs 3 5);
  do net <- current_network;
  if not_None net && has_trt_tensor inputs then
    run assert_ (eq_int beta 1 && eq_int alpha 1) "";
    do bshape <- shape_of mat_to_add;
    run assert_ (Nat.eqb (length bshape) 1) "";
    let inp := mat1 in
    do mat2_t <- torch_call "t" [mat2];
    do weight <- numpy mat2_t;
    do bias <- numpy mat_to_add;
    do C <- getitem (nd_shape weight) 0;
    (* use fc to implement this *)
    do layer <- add_layer (FullyConnected inp C (Weights_of weight) (Weights_of bias));
    do output <- get_output layer;
    ret [output]
  else
    do res <- torch_call "addmm" [beta; mat_to_add; alpha; mat1; mat2];
    ret [res].

(** [has_trt_tensor(tensors)] on one value of the input list: the
    predicate iterates over it. *)
Definition has_trt_tensor_in (tensors : value F) : M F bool :=
  match tensors with
  | VList l => ret (has_trt_tensor l)
  | VTensor _ => ret false
  | _ => raise TypeError
  end.

(** aten::cat *)
Definition aten_cat (inputs : list (value F)) : M F (list (value F)) :=
  do '(tensors, dim) <- unpack2 inputs;
  do net <- current_network;
  do convert <- (if not_None net then has_trt_tensor_in tensors else ret false);
  if (convert : bool) then
    do pos <- gt_int dim 0;
    run assert_ pos "";
    do layer <- add_layer (Concatenation tensors);
    do d <- as_int dim;
    run set_attr layer "axis" (VInt (d - 1));   (* trt don't support batch axis *)
    do output <- get_output layer;
    ret [output]
  else
    do res <- torch_call "cat" [tensors; dim];
    ret [res].

(** _trt_squeeze *)
Definition _trt_squeeze (inp dim : value F) : M F (value F) :=
  do pos <- gt_int dim 0;
  run assert_ pos "";
  do shape <- shape_of inp;
  do d <- as_int dim;
  do extent <- getitem shape (d - 1);
  run assert_ (extent =? 1) "";
  (* shape[dim - 1] = None; shape = [s for s in shape if s is not None] *)
  do k <- lift_option IndexError (norm_index shape (d - 1));
  let shape := delete k shape in
  do layer <- add_layer (Shuffle inp);
  run set_attr layer "reshape_dims" (VList (map VInt shape));
  get_output layer.

(** _trt_unsqueeze *)
Definition _trt_unsqueeze (inp dim : value F) : M F (value F) :=
  do pos <- gt_int dim 0;
  run assert_ pos "";
  do shape <- shape_of inp;
  do d <- as_int dim;
  let shape := py_insert shape (d - 1) 1 in
  do layer <- add_layer (Shuffle inp);
  run set_attr layer "reshape_dims" (VList (map VInt shape));
  get_output layer.

(** aten::unsqueeze *)
Definition aten_unsqueeze (inputs : list (value F)) : M F (list (value F)) :=
  do '(inp, dim) <- unpack2 inputs;
  do net <- current_network;
  if not_None net && has_trt_tensor inputs then
    do output <- _trt_unsqueeze inp dim;
    ret [output]
  else
    do res <- torch_call "unsqueeze" [inp; dim];
    ret [res].

(** aten::select *)
Definition aten_select (inputs : list (value F)) : M F (list (value F)) :=
  run print_inputs inputs;
  do '(inp, dim, index) <- unpack3 inputs;
  do net <- current_network;
  if not_None net && has_trt_tensor inputs then
    do pos <- gt_int dim 0;
    run assert_ pos "";
    do i <- as_int index;
    do output <- _trt_torch_slice inp dim index (VInt (i + 1)) (VInt 1);
    do output <- _trt_squeeze output dim;
    ret [output]
  else
    do i <- as_int index;
    (* slices = [slice(None, None, None) for _ in range(dim + 1)];
       slices[dim] = slice_ *)
    do d <- as_int dim;
    if d <? 0 then raise IndexError
    else
      do res <- torch_call "select" [inp; dim; index];
      ret [res].

(** aten::permute *)
Definition aten_permute (inputs : list (value F)) : M F (list (value F)) :=
  do '(inp, params) <- unpack2 inputs;
  do net <- current_network;
  if not_None net && has_trt_tensor inputs then
    do params <- as_list params;
    let perm_params := skipn 1 params in
    do oks <- mapM (fun p => gt_int p 0) perm_params;
    run assert_ (forallb (fun b => b) oks) "";
    do layer <- add_layer (Shuffle inp);
    do order <- mapM (fun p => do p <- as_int p; ret (VInt (p - 1))) perm_params;
    run set_attr layer "first_transpose" (VList order);
    do output <- get_output layer;
    ret [output]
  else
    do inp0 <- getitem inputs 0;
    do res <- torch_call "permute" [inp0; params];
    ret [res].

(** aten::contiguous *)
Definition aten_contiguous (inputs : list (value F)) : M F (list (value F)) :=
  do net <- current_network;
  if not_None net && has_trt_tensor inputs then
    do inp0 <- getitem inputs 0;
    ret [inp0]
  else
    do inp0 <- getitem inputs 0;
    do res <- torch_call "contiguous" [inp0];
    ret [res].

(** aten::constant_pad_nd *)
Definition aten_constant_pad_nd (inputs : list (value F)) : M F (list (value F)) :=
  do '(inp, pad_params, val) <- unpack3 inputs;
  do net <- current_network;
  if not_None net && has_trt_tensor inputs then
    run assert_ (eq_int val 0) "";
    do pads <- as_list pad_params;
    do '(w0, h0, w1, h1) <- unpack4 pads;
    do layer <- add_layer (Padding inp [w0; h0] [w1; h1]);
    do output <- get_output layer;
    ret [output]
  else
    do res <- torch_call "pad" [inp; pad_params; val];
    ret [res].

End MoreHandlers.

(** ** Instances of the element arithmetic *)

(** IEEE binary64 numbers, as numpy's float64 and Python's float.  The
    conversion to float32 rounds to the nearest binary32 number (ties to
    even), which a binary64 number represents exactly; since binary64
    carries more than twice the precision of binary32, rounding the
    binary64 result of one operation gives the binary32 result of that
    operation.  The conversion to an integer type truncates. *)
Definition round_float32 (x : float) : float :=
  match Prim2SF x with
  | S754_finite s m e => SF2Prim (binary_round 24 128 s m e)
  | _ => x
  end.

Definition trunc_float (x : float) : float :=
  match Prim2SF x with
  | S754_finite s m e =>
      if 0 <=? e then x
      else match Z.shiftr (Zpos m) (- e) with
           | Zpos m' => SF2Prim (S754_finite s m' 0)
           | _ => SF2Prim (S754_zero s)
           end
  | _ => x
  end.

Definition float_of_Z (n : Z) : float :=
  SF2Prim (binary_normalize 53 1024 n 0 false).

#[export] Instance float_scalar : Scalar float := {|
  of_int := float_of_Z;
  f_neg := PrimFloat.opp;
  f_add := PrimFloat.add;
  f_mul := PrimFloat.mul;
  f_div := PrimFloat.div;
  f_sqrt := PrimFloat.sqrt;
  f_eqb := PrimFloat.eqb;
  f_ltb := PrimFloat.ltb;
  astype := fun dt x =>
              match dt with
              | float64 => x
              | float32 => round_float32 x
              | int32 | int64 => trunc_float x
              end
|}.

(** Instances of the external libraries for running the handlers on
    concrete inputs: ReLU, and the maximum of a one-dimensional array
    with the position of its first occurrence. *)
Definition relu_float (a : ndarray float) : ndarray float :=
  mk_ndarray (nd_dtype a) (nd_shape a)
             (map (fun x => if PrimFloat.ltb x 0%float then 0%float else x) (nd_data a)).

Fixpoint argmax_float (l : list float) (i : Z) (best : float) (besti : Z) : float * Z :=
  match l with
  | [] => (best, besti)
  | x :: r => if PrimFloat.ltb best x then argmax_float r (i + 1) x i
              else argmax_float r (i + 1) best besti
  end.

Definition max1d_float (a : ndarray float) (dim : value float) (keepdim : bool)
  : result (ndarray float * ndarray float) :=
  match nd_shape a, nd_data a, dim with
  | [_], x :: r, VInt 0 =>
      let '(m, i) := argmax_float r 1 x 0 in
      let shape := if keepdim then [1] else [] in
      Ok (mk_ndarray (nd_dtype a) shape [m], mk_ndarray int64 shape [float_of_Z i])
  | _, _, _ => Raise NotImplementedError
  end.

#[export] Instance example_torch : Torch float := {|
  torch_fn := fun name args store =>
                match args with
                | [VTensor r] =>
                    if (name =? "relu")%string then
                      match store !! r with
                      | Some a => Ok (relu_float a)
                      | None => Raise AttributeError
                      end
                    else Raise NotImplementedError
                | _ => Raise NotImplementedError
                end;
  torch_max := max1d_float
|}.

(** Output shapes, for running on concrete inputs: layers that act
    elementwise keep the shape of their input. *)
Definition example_output_shape {F : Type} (l : layer F) : list Z :=
  match l_call l with
  | Activation (VTrt t) _ => it_shape t
  | Scale (VTrt t) _ _ _ _ => it_shape t
  | ElementWise (VTrt t) _ _ => it_shape t
  | Pooling (VTrt t) _ _ => it_shape t
  | Reduce (VTrt t) _ _ _ => it_shape t
  | Convolution (VTrt t) _ _ _ _ => it_shape t
  | Constant shape _ => shape
  | _ => []
  end.

#[export] Instance example_trt {F : Type} : TensorRT F := {|
  output_shape := example_output_shape
|}.

(** Output shapes in which a slice layer has the extents it was asked
    for. *)
Definition sliced_output_shape {F : Type} (l : layer F) : list Z :=
  match l_call l with
  | Slice _ _ shape _ => shape
  | _ => example_output_shape l
  end.

Definition sliced_trt {F : Type} : TensorRT F := {|
  output_shape := sliced_output_shape
|}.

(** The shift of numpy 2: computed in uint32.  The count is converted
    to uint32 (OverflowError when it does not fit), the result is
    reduced to 32 bits, and a shift by the width or more gives 0. *)
Definition uint32_left_shift (a n : Z) : result Z :=
  if (0 <=? n) && (n <? 2 ^ 32)
  then Ok (if n <? 32 then Z.shiftl a n mod 2 ^ 32 else 0)
  else Raise OverflowError.

(** The shift of numpy 1.17 to 1.26: a count that fits int64 promotes
    the operation to int64, where the result wraps around and a shift by
    the width or more gives 0; a count up to 2^64 - 1 promotes it to
    uint64, where every such shift gives 0; a larger count makes it a
    shift of Python ints by more bits than an int can hold, which
    raises (taken as OverflowError). *)
Definition int64_left_shift (a n : Z) : result Z :=
  if (0 <=? n) && (n <? 64)
  then Ok ((Z.shiftl a n + 2 ^ 63) mod 2 ^ 64 - 2 ^ 63)
  else if (0 <=? n) && (n <? 2 ^ 64) then Ok 0
  else Raise OverflowError.

#[export] Instance numpy1 : NumPy.
Proof.
  refine {| left_shift_uint32 := int64_left_shift |}.
  intros n Hn. unfold int64_left_shift.
  destruct (Z.leb_spec 0 n) as [_ | ?]; [| lia].
  destruct (Z.ltb_spec n 64) as [_ | ?]; [| lia].
  simpl. rewrite Z.shiftl_1_l. f_equal.
  assert (0 < 2 ^ n) by (apply Z.pow_pos_nonneg; lia).
  assert (2 ^ n < 2 ^ 32) by (apply Z.pow_lt_mono_r; lia).
  rewrite Z.mod_small; lia.
Defined.

#[export] Instance numpy2 : NumPy.
Proof.
  refine {| left_shift_uint32 := uint32_left_shift |}.
  intros n Hn. unfold uint32_left_shift.
  destruct (Z.leb_spec 0 n) as [_ | ?]; [| lia].
  destruct (Z.ltb_spec n (2 ^ 32)) as [_ | ?]; [| lia].
  destruct (Z.ltb_spec n 32) as [_ | ?]; [| lia].
  simpl. rewrite Z.shiftl_1_l. f_equal.
  assert (0 < 2 ^ n) by (apply Z.pow_pos_nonneg; lia).
  assert (2 ^ n < 2 ^ 32) by (apply Z.pow_lt_mono_r; lia).
  rewrite Z.mod_small; lia.
Defined.

(** A tensor library whose [t] transposes a two-dimensional array stored
    in row-major order. *)
Definition transpose2d {A : Type} (rows cols : nat) (data : list A) : list A :=
  flat_map (fun j =>
              flat_map (fun i => match data !! (i * cols + j)%nat with
                                 | Some x => [x]
                                 | None => []
                                 end) (seq 0 rows)) (seq 0 cols).

Definition transposing_torch : Torch float := {|
  torch_fn := fun name args store =>
                match args with
                | [VTensor r] =>
                    if (name =? "t")%string then
                      match store !! r with
                      | Some a =>
                          match nd_shape a with
                          | [m; n] =>
                              Ok (mk_ndarray (nd_dtype a) [n; m]
                                    (transpose2d (Z.to_nat m) (Z.to_nat n) (nd_data a)))
                          | _ => Raise NotImplementedError
                          end
                      | None => Raise AttributeError
                      end
                    else Raise NotImplementedError
                | _ => Raise NotImplementedError
                end;
  torch_max := max1d_float
|}.

(** A network input of shape (3, 8, 8), batch axis excluded. *)
Definition example_input : ITensor := mk_ITensor None [3; 8; 8].

(** ** Vocabulary of the statements *)

Section Vocabulary.
Context {F : Type} `{!Scalar F}.


(** The array that constant materialization bakes into the network for
    a real tensor holding [a], next to a symbolic operand of rank
    [rank]: float64 is converted to float32, and a 0-d array is reshaped
    to [rank] axes of extent 1 (for [rank] at least 1; with rank 0 the
    reshape call fails). *)
Definition constant_of (rank : nat) (a : ndarray F) : ndarray F :=
  let a := if dtype_eqb (nd_dtype a) float64 then np_astype a float32 else a in
  match nd_shape a with
  | [] => mk_ndarray (nd_dtype a) (repeat 1 rank) (nd_data a)
  | _ :: _ => a
  end.

(** The element types of the host buffers attached to a layer. *)
Definition weights_dtypes (w : Weights F) : list dtype :=
  match w with
  | Weights_of a => [nd_dtype a]
  | Weights_empty => []
  end.

Definition payload_dtypes (l : layer F) : list dtype :=
  match l_call l with
  | Convolution _ _ _ kernel bias | Deconvolution _ _ _ kernel bias =>
      weights_dtypes kernel ++ weights_dtypes bias
  | Scale _ _ shift scale power =>
      weights_dtypes shift ++ weights_dtypes scale ++ weights_dtypes power
  | Constant _ weights => weights_dtypes weights
  | _ => []
  end.

(** The mask with bit [ax - 1] set for every axis [ax] of the list. *)
Definition axes_mask (axes : list Z) : Z :=
  fold_left (fun res ax => Z.lor res (2 ^ (ax - 1))) axes 0.

End Vocabulary.

(** * Properties of the handlers *)

Section Builder.
Context {F : Type} `{!Scalar F} `{!Torch F} `{!TensorRT F}.

(** ** The builder operations on an active network *)

Lemma add_layer_active (c : layer_call F) (ls : list (layer F)) (ts : list (ndarray F)) :
  add_layer c (mk_state (Some ls) ts)
  = (Ok (length ls), mk_state (Some (ls ++ [mk_layer c []])) ts).
Proof. reflexivity. Qed.

Lemma set_attr_last (name : string) (v : value F) (l : layer F)
      (ls : list (layer F)) (ts : list (ndarray F)) :
  set_attr (length ls) name v (mk_state (Some (ls ++ [l])) ts)
  = (Ok tt, mk_state (Some (ls ++ [mk_layer (l_call l) ((name, v) :: l_attrs l)])) ts).
Proof.
  unfold set_attr; simpl.
  replace (length ls) with (length ls + 0)%nat at 1 by lia.
  rewrite alter_app_r. reflexivity.
Qed.

Lemma get_output_last (l : layer F) (ls : list (layer F)) (ts : list (ndarray F)) :
  get_output (length ls) (mk_state (Some (ls ++ [l])) ts)
  = (Ok (VTrt (mk_ITensor (Some (length ls)) (output_shape l))),
     mk_state (Some (ls ++ [l])) ts).
Proof.
  unfold get_output; simpl.
  rewrite list_lookup_middle by reflexivity. reflexivity.
Qed.

Lemma numpy_tensor (r : ref) (a : ndarray F) (net : option (list (layer F)))
      (ts : list (ndarray F)) :
  ts !! r = Some a ->
  numpy (VTensor r) (mk_state net ts) = (Ok a, mk_state net ts).
Proof. intros E. unfold numpy; simpl. rewrite E. reflexivity. Qed.

Lemma alter_last {A : Type} (f : A -> A) (ls : list A) (l : A) :
  alter f (length ls) (ls ++ [l]) = ls ++ [f l].
Proof.
  replace (length ls) with (length ls + 0)%nat by lia.
  rewrite alter_app_r. reflexivity.
Qed.

Lemma lookup_last {A : Type} (ls : list A) (l : A) :
  (ls ++ [l]) !! length ls = Some l.
Proof. apply list_lookup_middle. reflexivity. Qed.

End Builder.

Ltac run_handler :=
  unfold bind, current_network; simpl;
  repeat (first [ rewrite add_layer_active | rewrite set_attr_last
                | rewrite get_output_last | rewrite alter_last
                | rewrite lookup_last ]; simpl).

Section Properties.
Context {F : Type} `{!Scalar F} `{!Torch F} `{!TensorRT F} {np : NumPy}.

Local Arguments has_trt_tensor : simpl never.
Local Arguments _scale_or_elementwise : simpl never.
Local Arguments try_convert_to_constant : simpl never.


(** ** aten::slice on the batch axis *)

(** C4. In conversion mode, aten::slice on axis 0 returns its input
    unchanged, building no layer, when start = 0, step = 1 and
    end > 100000000; with any other start, end and step on axis 0 it
    fails (the assertion that the axis is positive), and the network is
    left as it was. *)
Theorem aten_slice_batch_axis (ls : list (layer F)) (ts : list (ndarray F))
        (t : ITensor) (start end_ step : Z) :
  aten_slice [VTrt t; VInt 0; VInt start; VInt end_; VInt step] (mk_state (Some ls) ts)
  = if (start =? 0) && (step =? 1) && (100000000 <? end_)
    then (Ok [VTrt t], mk_state (Some ls) ts)
    else (Raise (AssertionError "tensorrt don't support batch axis operation"),
          mk_state (Some ls) ts).
Proof.
  unfold aten_slice, bind; simpl.
  destruct (start =? 0), (step =? 1); simpl; try reflexivity.
  destruct (100000000 <? end_); reflexivity.
Qed.

(** ** aten::relu and aten::relu_ *)

Lemma aten_relu_converts (ls : list (layer F)) (ts : list (ndarray F))
      (x : value F) (rest : list (value F)) :
  let act := mk_layer (Activation x RELU) [] in
  aten_relu (x :: rest) (mk_state (Some ls) ts)
  = (Ok [VTrt (mk_ITensor (Some (length ls)) (output_shape act))],
     mk_state (Some (ls ++ [act])) ts).
Proof. unfold aten_relu. run_handler. reflexivity. Qed.

Lemma aten_relu__converts (ls : list (layer F)) (ts : list (ndarray F))
      (x : value F) (rest : list (value F)) :
  has_trt_tensor (x :: rest) = true ->
  let act := mk_layer (Activation x RELU) [] in
  aten_relu_ (x :: rest) (mk_state (Some ls) ts)
  = (Ok [VTrt (mk_ITensor (Some (length ls)) (output_shape act))],
     mk_state (Some (ls ++ [act])) ts).
Proof.
  intros Hsym. unfold aten_relu_. run_handler. rewrite Hsym.
  run_handler. reflexivity.
Qed.

Lemma aten_relu__falls_back (net : option (list (layer F))) (ts : list (ndarray F))
      (r : ref) (rest : list (value F)) (a a' : ndarray F) :
  net = None \/ has_trt_tensor (VTensor r :: rest) = false ->
  ts !! r = Some a ->
  torch_fn "relu" [VTensor r] ts = Ok a' ->
  aten_relu_ (VTensor r :: rest) (mk_state net ts)
  = (Ok [VTensor r], mk_state net (<[r := a']> ts)).
Proof.
  intros Hgate Hr Hrelu. unfold aten_relu_. run_handler.
  assert (not_None net && has_trt_tensor (VTensor r :: rest) = false) as ->.
  { destruct Hgate as [-> | ->]; [reflexivity | apply andb_false_r]. }
  unfold torch_call_inplace; simpl. rewrite Hr, Hrelu. reflexivity.
Qed.

Lemma aten_relu_falls_back (ts : list (ndarray F)) (x : value F)
      (rest : list (value F)) (a' : ndarray F) :
  torch_fn "relu" [x] ts = Ok a' ->
  aten_relu (x :: rest) (mk_state None ts)
  = (Ok [VTensor (length ts)], mk_state None (ts ++ [a'])).
Proof.
  intros Hrelu. unfold aten_relu, bind, torch_call; simpl.
  rewrite Hrelu. reflexivity.
Qed.

(** C5. aten::relu enters conversion mode whenever a network is active,
    whatever its operands: it adds a ReLU activation layer on its first
    input and returns that layer's symbolic output.  aten::relu_ does so
    only when a network is active and an operand is symbolic.  Otherwise
    each runs the real ReLU: aten::relu_ in place (the input tensor is
    overwritten and returned), aten::relu out of place (a new tensor is
    returned and the input is left as it was). *)
Theorem relu_conversion_gate :
  (forall (ls : list (layer F)) (ts : list (ndarray F)) (x : value F)
          (rest : list (value F)),
      let act := mk_layer (Activation x RELU) [] in
      aten_relu (x :: rest) (mk_state (Some ls) ts)
      = (Ok [VTrt (mk_ITensor (Some (length ls)) (output_shape act))],
         mk_state (Some (ls ++ [act])) ts))
  /\ (forall (ls : list (layer F)) (ts : list (ndarray F)) (x : value F)
             (rest : list (value F)),
         has_trt_tensor (x :: rest) = true ->
         let act := mk_layer (Activation x RELU) [] in
         aten_relu_ (x :: rest) (mk_state (Some ls) ts)
         = (Ok [VTrt (mk_ITensor (Some (length ls)) (output_shape act))],
            mk_state (Some (ls ++ [act])) ts))
  /\ (forall (net : option (list (layer F))) (ts : list (ndarray F)) (r : ref)
             (rest : list (value F)) (a a' : ndarray F),
         net = None \/ has_trt_tensor (VTensor r :: rest) = false ->
         ts !! r = Some a ->
         torch_fn "relu" [VTensor r] ts = Ok a' ->
         aten_relu_ (VTensor r :: rest) (mk_state net ts)
         = (Ok [VTensor r], mk_state net (<[r := a']> ts)))
  /\ (forall (ts : list (ndarray F)) (x : value F) (rest : list (value F))
             (a' : ndarray F),
         torch_fn "relu" [x] ts = Ok a' ->
         aten_relu (x :: rest) (mk_state None ts)
         = (Ok [VTensor (length ts)], mk_state None (ts ++ [a']))).
Proof.
  repeat split.
  - apply aten_relu_converts.
  - apply aten_relu__converts.
  - apply aten_relu__falls_back.
  - apply aten_relu_falls_back.
Qed.

(** ** aten::max_pool2d *)

(** C9. In conversion mode aten::max_pool2d adds the pooling layer and
    sets its stride and padding before it checks the dilation: when the
    dilation list holds a value other than 1 the handler fails with the
    assertion, and the network it leaves behind already contains the
    pooling layer with both attributes set. *)
Theorem aten_max_pool2d_fails_after_adding_layer
        (ls : list (layer F)) (ts : list (ndarray F)) (t : ITensor)
        (ksize stride pad : value F) (dilation rest : list (value F)) :
  forallb (fun b => eq_int b 1) dilation = false ->
  aten_max_pool2d (VTrt t :: ksize :: stride :: pad :: VList dilation :: rest)
                  (mk_state (Some ls) ts)
  = (Raise (AssertionError "trt pool don't support dilation"),
     mk_state (Some (ls ++ [mk_layer (Pooling (VTrt t) MAX ksize)
                                     [("padding", pad); ("stride", stride)]]))
              ts).
Proof.
  intros Hdil. unfold aten_max_pool2d. run_handler.
  rewrite Hdil. reflexivity.
Qed.

(** ** aten::adaptive_avg_pool2d *)

(** What the conversion path does on two spatial axes: the kernel is the
    floor quotient of extent by target, and the assertion tests the
    extent against that kernel. *)
Lemma aten_adaptive_avg_pool2d_two_axes
      (ls : list (layer F)) (ts : list (ndarray F)) (p : option nat)
      (c h w th tw : Z) :
  th <> 0 -> tw <> 0 -> h / th <> 0 -> w / tw <> 0 ->
  let inp := VTrt (mk_ITensor p [c; h; w]) in
  let pool := mk_layer (Pooling inp AVERAGE (VList [VInt (h / th); VInt (w / tw)])) [] in
  aten_adaptive_avg_pool2d [inp; VList [VInt th; VInt tw]] (mk_state (Some ls) ts)
  = if (h mod (h / th) =? 0) && (w mod (w / tw) =? 0)
    then (Ok [VTrt (mk_ITensor (Some (length ls)) (output_shape pool))],
          mk_state (Some (ls ++ [pool])) ts)
    else (Raise (AssertionError ""), mk_state (Some ls) ts).
Proof.
  intros Hth Htw Hkh Hkw inp pool. subst inp pool.
  unfold aten_adaptive_avg_pool2d. run_handler.
  unfold floordiv, pymod, bind, ret.
  apply Z.eqb_neq in Hth, Htw, Hkh, Hkw. rewrite Hth, Htw. simpl.
  rewrite Hkh, Hkw. simpl.
  destruct (h mod (h / th) =? 0), (w mod (w / tw) =? 0); simpl;
    run_handler; reflexivity.
Qed.

(** An extent that the target divides exactly passes the assertion. *)
Lemma exact_division_passes (h th : Z) :
  0 < th -> 0 < h -> h mod th = 0 -> h / th <> 0 /\ h mod (h / th) = 0.
Proof.
  intros Hth Hh Hmod.
  apply Z.div_exact in Hmod; [| lia].
  assert (0 < h / th) by nia.
  split; [lia |].
  rewrite Hmod at 1. apply Z_mod_mult.
Qed.

(** The exact-division case of the handler: the kernel is
    extent / target on each axis. *)
Lemma aten_adaptive_avg_pool2d_exact
      (ls : list (layer F)) (ts : list (ndarray F)) (p : option nat)
      (c h w th tw : Z) :
  0 < th -> 0 < tw -> 0 < h -> 0 < w -> h mod th = 0 -> w mod tw = 0 ->
  let inp := VTrt (mk_ITensor p [c; h; w]) in
  let pool := mk_layer (Pooling inp AVERAGE (VList [VInt (h / th); VInt (w / tw)])) [] in
  aten_adaptive_avg_pool2d [inp; VList [VInt th; VInt tw]] (mk_state (Some ls) ts)
  = (Ok [VTrt (mk_ITensor (Some (length ls)) (output_shape pool))],
     mk_state (Some (ls ++ [pool])) ts).
Proof.
  intros Hth Htw Hh Hw Hmh Hmw inp pool.
  destruct (exact_division_passes h th Hth Hh Hmh) as [Hkh Hrh].
  destruct (exact_division_passes w tw Htw Hw Hmw) as [Hkw Hrw].
  subst inp pool.
  rewrite aten_adaptive_avg_pool2d_two_axes by lia.
  rewrite Hrh, Hrw. reflexivity.
Qed.

(** C1. On an input with spatial extents 8 x 8 the conversion path
    builds an average-pooling layer with kernel [2, 2] for the target
    [4, 4]; for the target [3, 3], which does not divide 8, it does not
    fail: the assertion tests 8 against the kernel 8 // 3 = 2, not
    against the target, and the handler again builds a pooling layer with
    kernel [2, 2]. *)
Theorem aten_adaptive_avg_pool2d_accepts_inexact_division
        (ls : list (layer F)) (ts : list (ndarray F)) (p : option nat) (c : Z) :
  let inp := VTrt (mk_ITensor p [c; 8; 8]) in
  let pool := mk_layer (Pooling inp AVERAGE (VList [VInt 2; VInt 2])) [] in
  aten_adaptive_avg_pool2d [inp; VList [VInt 4; VInt 4]] (mk_state (Some ls) ts)
  = (Ok [VTrt (mk_ITensor (Some (length ls)) (output_shape pool))],
     mk_state (Some (ls ++ [pool])) ts)
  /\ aten_adaptive_avg_pool2d [inp; VList [VInt 3; VInt 3]] (mk_state (Some ls) ts)
     = (Ok [VTrt (mk_ITensor (Some (length ls)) (output_shape pool))],
        mk_state (Some (ls ++ [pool])) ts).
Proof.
  intros inp pool; subst inp pool; split.
  - unfold aten_adaptive_avg_pool2d. run_handler. reflexivity.
  - unfold aten_adaptive_avg_pool2d. run_handler. reflexivity.
Qed.

(** ** The elementwise dispatch *)

Lemma prod_Z_ones (n : nat) : prod_Z (repeat 1 n) = 1.
Proof.
  induction n as [| n IH]; [reflexivity |].
  change (prod_Z (repeat 1 (S n))) with (1 * prod_Z (repeat 1 n)). lia.
Qed.

(** The conversion of float64 to float32 keeps the shape. *)
Lemma downcast_shape (val : ndarray F) :
  nd_shape (if dtype_eqb (nd_dtype val) float64 then np_astype val float32 else val)
  = nd_shape val.
Proof. destruct (dtype_eqb (nd_dtype val) float64); reflexivity. Qed.

(** A real tensor as left operand next to a symbolic right operand is
    materialized as one constant layer; a 0-d tensor needs a symbolic
    operand of rank at least 1. *)
Lemma try_convert_to_constant_left
      (ls : list (layer F)) (ts : list (ndarray F)) (r : ref) (x : ITensor)
      (val : ndarray F) :
  ts !! r = Some val ->
  (nd_shape val = [] -> it_shape x <> []) ->
  let a := constant_of (length (it_shape x)) val in
  let const := mk_layer (Constant (nd_shape a) (Weights_of a)) [] in
  try_convert_to_constant [VTensor r; VTrt x] (mk_state (Some ls) ts)
  = (Ok [VTrt (mk_ITensor (Some (length ls)) (output_shape const)); VTrt x],
     mk_state (Some (ls ++ [const])) ts).
Proof.
  intros Hr Hrank a const. subst a const.
  unfold try_convert_to_constant, constant_of. simpl mapM. unfold bind.
  rewrite (numpy_tensor _ _ _ _ Hr).
  pose proof (downcast_shape val) as Hcast.
  set (a1 := if dtype_eqb (nd_dtype val) float64 then np_astype val float32 else val)
    in *.
  destruct (nd_shape a1) as [| d sh] eqn:Hsh; simpl.
  - destruct (it_shape x) as [| e rest] eqn:Hx;
      [exfalso; apply Hrank; [symmetry; exact Hcast | reflexivity] |].
    unfold np_reshape, nd_size. rewrite Hsh.
    change (length (e :: rest)) with (S (length rest)).
    rewrite prod_Z_ones. simpl.
    run_handler. reflexivity.
  - run_handler. rewrite Hsh. reflexivity.
Qed.



Lemma scale_fold_mul (ls : list (layer F)) (ts : list (ndarray F)) (x : ITensor)
      (r : ref) (dt : dtype) (shape : list Z) (v : F) :
  ts !! r = Some (mk_ndarray dt shape [v]) -> prod_Z shape = 1 ->
  let sc := mk_layer (Scale (VTrt x) UNIFORM
                        (Weights_of (mk_ndarray float32 [] [astype float32 (of_int 0)]))
                        (Weights_of (mk_ndarray float32 shape [astype float32 v]))
                        (Weights_of (mk_ndarray float32 [] [astype float32 (of_int 1)]))) [] in
  _scale_or_elementwise (VTrt x) (VTensor r) "mul" (mk_state (Some ls) ts)
  = (Ok (VTrt (mk_ITensor (Some (length ls)) (output_shape sc))),
     mk_state (Some (ls ++ [sc])) ts).
Proof.
  intros Hr Hsize sc; subst sc. unfold _scale_or_elementwise, bind. simpl.
  rewrite Hr. unfold nd_size; simpl. rewrite Hsize; simpl.
  run_handler. reflexivity.
Qed.

Lemma scale_fold_div (ls : list (layer F)) (ts : list (ndarray F)) (x : ITensor)
      (r : ref) (dt : dtype) (shape : list Z) (v : F) :
  ts !! r = Some (mk_ndarray dt shape [v]) -> prod_Z shape = 1 ->
  let sc := mk_layer (Scale (VTrt x) UNIFORM
                        (Weights_of (mk_ndarray float32 [] [astype float32 (of_int 0)]))
                        (Weights_of (mk_ndarray float32 shape
                           [astype float32 (astype (to_float dt) (f_div (of_int 1) v))]))
                        (Weights_of (mk_ndarray float32 [] [astype float32 (of_int 1)]))) [] in
  _scale_or_elementwise (VTrt x) (VTensor r) "div" (mk_state (Some ls) ts)
  = (Ok (VTrt (mk_ITensor (Some (length ls)) (output_shape sc))),
     mk_state (Some (ls ++ [sc])) ts).
Proof.
  intros Hr Hsize sc; subst sc. unfold _scale_or_elementwise, bind. simpl.
  rewrite Hr. unfold nd_size; simpl. rewrite Hsize; simpl.
  run_handler. reflexivity.
Qed.



(** ** aten::div by a single-element tensor *)

(** C8. In conversion mode aten::div with a symbolic left operand and a
    single-element real tensor as right operand never rejects the
    divisor: for every value, zero included, the handler succeeds and
    the scale of the uniform scale layer is the reciprocal 1/value
    computed by the element arithmetic. *)
Theorem aten_div_reciprocal_unguarded
        (ls : list (layer F)) (ts : list (ndarray F)) (x : ITensor) (r : ref)
        (dt : dtype) (shape : list Z) (v : F) :
  ts !! r = Some (mk_ndarray dt shape [v]) ->
  prod_Z shape = 1 ->
  let recip := astype float32 (astype (to_float dt) (f_div (of_int 1) v)) in
  let sc := mk_layer (Scale (VTrt x) UNIFORM
                        (Weights_of (mk_ndarray float32 [] [astype float32 (of_int 0)]))
                        (Weights_of (mk_ndarray float32 shape [recip]))
                        (Weights_of (mk_ndarray float32 [] [astype float32 (of_int 1)]))) [] in
  aten_div [VTrt x; VTensor r] (mk_state (Some ls) ts)
  = (Ok [VTrt (mk_ITensor (Some (length ls)) (output_shape sc))],
     mk_state (Some (ls ++ [sc])) ts).
Proof.
  intros Hr Hsize recip sc. subst recip sc.
  unfold aten_div, bind, current_network. simpl.
  rewrite (scale_fold_div ls ts x r dt shape v Hr Hsize). reflexivity.
Qed.

(** ** Arithmetic on one-dimensional arrays of equal length *)






(** ** The axis mask of the reductions *)

Lemma axes_loop_ints (axes : list Z) (res : Z) (s : state F) :
  Forall (fun ax => 0 < ax <= 32) axes ->
  axes_loop (map VInt axes) res s
  = (Ok (fold_left (fun res ax => Z.lor res (2 ^ (ax - 1))) axes res), s).
Proof.
  intros Hpos. revert res.
  induction Hpos as [| ax axes Hax _ IH]; intros res; [reflexivity |].
  simpl. unfold bind at 1. simpl.
  destruct (Z.ltb_spec 0 ax) as [_ | ?]; [| lia].
  unfold bind. simpl. rewrite left_shift_small by lia. simpl. apply IH.
Qed.

Lemma fold_lor_keeps_bit (axes : list Z) (res k : Z) :
  Z.testbit res k = true ->
  Z.testbit (fold_left (fun res ax => Z.lor res (2 ^ (ax - 1))) axes res) k = true.
Proof.
  revert res. induction axes as [| ax axes IH]; intros res Hbit; [exact Hbit |].
  simpl. apply IH. rewrite Z.lor_spec, Hbit. reflexivity.
Qed.

Lemma fold_lor_sets_bit (axes : list Z) (res a : Z) :
  In a axes -> 0 < a ->
  Z.testbit (fold_left (fun res ax => Z.lor res (2 ^ (ax - 1))) axes res) (a - 1)
  = true.
Proof.
  intros Hin Ha. revert res.
  induction axes as [| ax axes IH]; intros res; [destruct Hin |].
  simpl. destruct Hin as [-> | Hin].
  - apply fold_lor_keeps_bit.
    rewrite Z.lor_spec, Z.pow2_bits_true by lia. apply orb_true_r.
  - apply IH; assumption.
Qed.

Lemma axes_mask_bit (axes : list Z) (a : Z) :
  In a axes -> 0 < a -> Z.testbit (axes_mask axes) (a - 1) = true.
Proof. apply fold_lor_sets_bit. Qed.

Local Arguments axes_loop : simpl never.

Lemma aten_max_converts (ls : list (layer F)) (ts : list (ndarray F))
      (t : ITensor) (dim : Z) (keepdim : value F) :
  0 < dim <= 32 ->
  let red := mk_layer (Reduce (VTrt t) ReduceMAX (2 ^ (dim - 1))
                              (truthy keepdim)) [] in
  aten_max [VTrt t; VInt dim; keepdim] (mk_state (Some ls) ts)
  = (Ok [VTrt (mk_ITensor (Some (length ls)) (output_shape red)); VNone],
     mk_state (Some (ls ++ [red])) ts).
Proof.
  intros Hdim red; subst red.
  unfold aten_max, _axes_to_trt_axis, bind, current_network. simpl.
  rewrite (axes_loop_ints [dim] 0) by (constructor; [exact Hdim | constructor]).
  run_handler. reflexivity.
Qed.

Lemma aten_sum_converts (ls : list (layer F)) (ts : list (ndarray F))
      (t : ITensor) (axes : list Z) (keepdim : value F) :
  Forall (fun ax => 0 < ax <= 32) axes ->
  let red := mk_layer (Reduce (VTrt t) ReduceSUM (axes_mask axes)
                              (truthy keepdim)) [] in
  aten_sum [VTrt t; VList (map VInt axes); keepdim] (mk_state (Some ls) ts)
  = (Ok [VTrt (mk_ITensor (Some (length ls)) (output_shape red))],
     mk_state (Some (ls ++ [red])) ts).
Proof.
  intros Hpos red; subst red.
  unfold aten_sum, _axes_to_trt_axis, bind, current_network. simpl.
  rewrite (axes_loop_ints axes 0) by exact Hpos.
  run_handler. reflexivity.
Qed.

Lemma aten_max_falls_back (net : option (list (layer F))) (ts : list (ndarray F))
      (r : ref) (dim keepdim : value F) (a values indices : ndarray F) :
  net = None \/ has_trt_tensor [VTensor r; dim; keepdim] = false ->
  ts !! r = Some a ->
  torch_max a dim (truthy keepdim) = Ok (values, indices) ->
  aten_max [VTensor r; dim; keepdim] (mk_state net ts)
  = (Ok [VTensor (length ts); VTensor (S (length ts))],
     mk_state net (ts ++ [values; indices])).
Proof.
  intros Hgate Hr Hmax.
  unfold aten_max, bind, current_network. simpl.
  assert (not_None net && has_trt_tensor [VTensor r; dim; keepdim] = false) as ->.
  { destruct Hgate as [-> | ->]; [reflexivity | apply andb_false_r]. }
  simpl. rewrite Hr. simpl. rewrite Hmax. simpl.
  rewrite <- app_assoc, length_app. simpl.
  replace (length ts + 1)%nat with (S (length ts)) by lia. reflexivity.
Qed.

(** C7. In conversion mode aten::max returns a two-element list: the
    symbolic output of a MAX reduce layer over the one axis (the mask has
    exactly bit axis-1 set, and the keep-dimensions flag is the one
    given), followed by None in place of the index tensor.  In fallback
    mode it returns two real tensors, the values and the indices of the
    real max over the axis. *)
Theorem aten_max_outputs :
  (forall (ls : list (layer F)) (ts : list (ndarray F)) (t : ITensor) (dim : Z)
          (keepdim : value F),
      0 < dim <= 32 ->
      let red := mk_layer (Reduce (VTrt t) ReduceMAX (2 ^ (dim - 1))
                                  (truthy keepdim)) [] in
      aten_max [VTrt t; VInt dim; keepdim] (mk_state (Some ls) ts)
      = (Ok [VTrt (mk_ITensor (Some (length ls)) (output_shape red)); VNone],
         mk_state (Some (ls ++ [red])) ts))
  /\ (forall (net : option (list (layer F))) (ts : list (ndarray F)) (r : ref)
             (dim keepdim : value F) (a values indices : ndarray F),
         net = None \/ has_trt_tensor [VTensor r; dim; keepdim] = false ->
         ts !! r = Some a ->
         torch_max a dim (truthy keepdim) = Ok (values, indices) ->
         aten_max [VTensor r; dim; keepdim] (mk_state net ts)
         = (Ok [VTensor (length ts); VTensor (S (length ts))],
            mk_state net (ts ++ [values; indices]))).
Proof.
  split.
  - apply aten_max_converts.
  - apply aten_max_falls_back.
Qed.

(** C10. The axis mask is computed without regard to the rank of the
    tensor: _axes_to_trt_axis ignores its rank argument, and the only
    check on an axis is that it is positive.  So for a tensor of any
    rank aten::sum and aten::max succeed in conversion mode on every
    axis from 1 to 32, also beyond the rank, and each such axis sets
    bit axis-1 of the mask. *)
Theorem reduce_axes_have_no_upper_bound :
  (forall (axes : list (value F)) (n n' : nat),
      _axes_to_trt_axis axes n = _axes_to_trt_axis axes n')
  /\ (forall (ls : list (layer F)) (ts : list (ndarray F)) (t : ITensor)
             (axes : list Z) (keepdim : value F),
         Forall (fun ax => 0 < ax <= 32) axes ->
         let red := mk_layer (Reduce (VTrt t) ReduceSUM (axes_mask axes)
                                     (truthy keepdim)) [] in
         aten_sum [VTrt t; VList (map VInt axes); keepdim] (mk_state (Some ls) ts)
         = (Ok [VTrt (mk_ITensor (Some (length ls)) (output_shape red))],
            mk_state (Some (ls ++ [red])) ts))
  /\ (forall (ls : list (layer F)) (ts : list (ndarray F)) (t : ITensor)
             (dim : Z) (keepdim : value F),
         0 < dim <= 32 ->
         let red := mk_layer (Reduce (VTrt t) ReduceMAX (axes_mask [dim])
                                     (truthy keepdim)) [] in
         aten_max [VTrt t; VInt dim; keepdim] (mk_state (Some ls) ts)
         = (Ok [VTrt (mk_ITensor (Some (length ls)) (output_shape red)); VNone],
            mk_state (Some (ls ++ [red])) ts))
  /\ (forall (axes : list Z) (a : Z),
         In a axes -> 0 < a -> Z.testbit (axes_mask axes) (a - 1) = true).
Proof.
  split; [reflexivity |].
  split; [apply aten_sum_converts |].
  split; [| apply axes_mask_bit].
  intros ls ts t dim keepdim Hdim. apply aten_max_converts. exact Hdim.
Qed.

(** ** aten::_convolution *)

Lemma aten_convolution_converts
      (ls : list (layer F)) (ts : list (ndarray F)) (x : ITensor) (rw : ref)
      (w : ndarray F) (d0 d1 kh kw g : Z) (bias : value F) (bw : Weights F)
      (stride pad dilation opad : list (value F)) (tr : bool) :
  ts !! rw = Some w ->
  nd_shape w = [d0; d1; kh; kw] ->
  forallb (fun e => eq_int e 0) opad = true ->
  (bias = VNone /\ bw = Weights_empty)
  \/ (exists (rb : ref) (b : ndarray F),
         bias = VTensor rb /\ ts !! rb = Some b /\ bw = Weights_of b) ->
  let conv :=
    if tr
    then mk_layer (Deconvolution (VTrt x) (d1 * g) [kh; kw] (Weights_of w) bw)
                  [("num_groups", VInt g); ("padding", VList pad);
                   ("stride", VList stride)]
    else mk_layer (Convolution (VTrt x) d0 [kh; kw] (Weights_of w) bw)
                  [("num_groups", VInt g); ("padding", VList pad);
                   ("stride", VList stride); ("dilation", VList dilation)] in
  aten_convolution
    [VTrt x; VTensor rw; bias; VList stride; VList pad; VList dilation;
     VBool tr; VList opad; VInt g]
    (mk_state (Some ls) ts)
  = (Ok [VTrt (mk_ITensor (Some (length ls)) (output_shape conv))],
     mk_state (Some (ls ++ [conv])) ts).
Proof.
  intros Hw Hshape Hopad Hbias conv. subst conv.
  unfold aten_convolution, bind, current_network. simpl.
  rewrite Hopad. simpl. unfold bind.
  rewrite (numpy_tensor _ _ _ _ Hw). simpl. rewrite Hshape. simpl.
  destruct Hbias as [[-> ->] | (rb & b & -> & Hb & ->)];
    destruct tr; simpl; rewrite Hw; simpl; rewrite ?Hb; simpl;
    run_handler; reflexivity.
Qed.

(** C3. In conversion mode aten::_convolution attaches the arrays of
    the weight and bias tensors to the layer as they are, so each host
    buffer has the element type of its tensor: float32 for a float32
    tensor, while a float64 tensor stays float64 and is not downcast.
    The sibling paths that bake a real tensor into the network do
    convert: constant materialization turns float64 into float32 (and
    keeps any other element type), and the folding of a single-element
    tensor into a scale layer makes every weight float32. *)
Theorem weights_keep_tensor_dtype
        (ls : list (layer F)) (ts : list (ndarray F)) (x : ITensor) (rw : ref)
        (w : ndarray F) (d0 d1 kh kw g : Z) (bias : value F) (bw : Weights F)
        (stride pad dilation opad : list (value F)) (tr : bool) :
  ts !! rw = Some w ->
  nd_shape w = [d0; d1; kh; kw] ->
  forallb (fun e => eq_int e 0) opad = true ->
  (bias = VNone /\ bw = Weights_empty)
  \/ (exists (rb : ref) (b : ndarray F),
         bias = VTensor rb /\ ts !! rb = Some b /\ bw = Weights_of b) ->
  (exists conv : layer F,
      aten_convolution
        [VTrt x; VTensor rw; bias; VList stride; VList pad; VList dilation;
         VBool tr; VList opad; VInt g]
        (mk_state (Some ls) ts)
      = (Ok [VTrt (mk_ITensor (Some (length ls)) (output_shape conv))],
         mk_state (Some (ls ++ [conv])) ts)
      /\ payload_dtypes conv = nd_dtype w :: weights_dtypes bw)
  /\ (forall (r : ref) (val : ndarray F),
         ts !! r = Some val ->
         (nd_shape val = [] -> it_shape x <> []) ->
         let a := constant_of (length (it_shape x)) val in
         let const := mk_layer (Constant (nd_shape a) (Weights_of a)) [] in
         try_convert_to_constant [VTensor r; VTrt x] (mk_state (Some ls) ts)
         = (Ok [VTrt (mk_ITensor (Some (length ls)) (output_shape const)); VTrt x],
            mk_state (Some (ls ++ [const])) ts)
         /\ payload_dtypes const
            = [if dtype_eqb (nd_dtype val) float64 then float32 else nd_dtype val])
  /\ (forall (r : ref) (dt : dtype) (shape : list Z) (v : F),
         ts !! r = Some (mk_ndarray dt shape [v]) ->
         prod_Z shape = 1 ->
         exists sc : layer F,
           aten_mul [VTrt x; VTensor r] (mk_state (Some ls) ts)
           = (Ok [VTrt (mk_ITensor (Some (length ls)) (output_shape sc))],
              mk_state (Some (ls ++ [sc])) ts)
           /\ payload_dtypes sc = [float32; float32; float32]).
Proof.
  intros Hw Hshape Hopad Hbias. split; [| split].
  - eexists. split.
    + apply (aten_convolution_converts ls ts x rw w d0 d1 kh kw g bias bw
               stride pad dilation opad tr Hw Hshape Hopad Hbias).
    + destruct tr; reflexivity.
  - intros r val Hr Hrank a const. split.
    + apply try_convert_to_constant_left; assumption.
    + subst const a. unfold payload_dtypes, constant_of. simpl.
      destruct (dtype_eqb (nd_dtype val) float64); simpl.
      * destruct (nd_shape val); reflexivity.
      * destruct (nd_shape val); reflexivity.
  - intros r dt shape v Hr Hsize. eexists. split.
    + unfold aten_mul, bind, current_network. simpl.
      rewrite (scale_fold_mul ls ts x r dt shape v Hr Hsize). reflexivity.
    + reflexivity.
Qed.

End Properties.

(** ** aten::batch_norm *)

Section BatchNorm.
Context {F : Type} `{!Scalar F} `{!Torch F} `{!TensorRT F}.

Local Arguments np_binop : simpl never.





End BatchNorm.

(** * Further properties of the handlers *)

Section MoreProperties.
Context {F : Type} `{!Scalar F} `{!Torch F} `{!TensorRT F} {np : NumPy}.

Local Arguments has_trt_tensor : simpl never.
Local Arguments try_convert_to_constant : simpl never.
Local Arguments _scale_or_elementwise : simpl never.

(** ** The axis mask *)

Lemma pow2_bit (a k : Z) :
  0 < a -> 0 <= k -> Z.testbit (2 ^ (a - 1)) k = true <-> k + 1 = a.
Proof.
  intros Ha Hk. rewrite Z.pow2_bits_eqb by lia. rewrite Z.eqb_eq. lia.
Qed.

Lemma fold_lor_bit (axes : list Z) (res k : Z) :
  Forall (fun ax => 0 < ax <= 32) axes -> 0 <= k ->
  Z.testbit (fold_left (fun res ax => Z.lor res (2 ^ (ax - 1))) axes res) k = true
  <-> Z.testbit res k = true \/ In (k + 1) axes.
Proof.
  intros Hpos Hk. revert res.
  induction Hpos as [| ax axes Hax _ IH]; intros res; simpl.
  - tauto.
  - rewrite IH, Z.lor_spec, orb_true_iff, (pow2_bit ax k) by lia.
    intuition (try subst; auto; lia).
Qed.

Lemma lor_bound (a b : Z) :
  0 <= a < 2 ^ 32 -> 0 <= b < 2 ^ 32 -> 0 <= Z.lor a b < 2 ^ 32.
Proof.
  intros Ha Hb. split; [apply Z.lor_nonneg; lia |].
  destruct (Z.eq_dec (Z.lor a b) 0) as [-> | Hnz]; [lia |].
  assert (0 <= Z.lor a b) by (apply Z.lor_nonneg; lia).
  apply Z.log2_lt_pow2; [lia |].
  rewrite Z.log2_lor by lia.
  apply Z.max_lub_lt.
  - destruct (Z.eq_dec a 0) as [-> | ?]; [reflexivity |].
    apply Z.log2_lt_pow2; lia.
  - destruct (Z.eq_dec b 0) as [-> | ?]; [reflexivity |].
    apply Z.log2_lt_pow2; lia.
Qed.

Lemma fold_lor_bound (axes : list Z) (res : Z) :
  Forall (fun ax => 0 < ax <= 32) axes -> 0 <= res < 2 ^ 32 ->
  0 <= fold_left (fun res ax => Z.lor res (2 ^ (ax - 1))) axes res < 2 ^ 32.
Proof.
  intros Hpos. revert res.
  induction Hpos as [| ax axes Hax _ IH]; intros res Hres; simpl; [exact Hres |].
  apply IH. apply lor_bound; [exact Hres |].
  split; [apply Z.pow_nonneg; lia | apply Z.pow_lt_mono_r; lia].
Qed.

(** X1. For a list of integer axes between 1 and 32, the range in which
    every numpy computes the shifted bit alike, _axes_to_trt_axis returns
    a mask that fits in 32 bits and whose bit k is set exactly when
    k + 1 is one of the axes; so the mask does not depend on the order
    or the repetition of the axes, nor on the rank passed in. *)
Theorem axes_mask_characterised (axes : list Z) (n : nat) (s : state F) :
  Forall (fun ax => 0 < ax <= 32) axes ->
  _axes_to_trt_axis (map VInt axes) n s = (Ok (axes_mask axes), s)
  /\ 0 <= axes_mask axes < 2 ^ 32
  /\ forall k : Z,
       0 <= k -> (Z.testbit (axes_mask axes) k = true <-> In (k + 1) axes).
Proof.
  intros Hpos. split; [| split].
  - unfold _axes_to_trt_axis. apply axes_loop_ints. exact Hpos.
  - apply fold_lor_bound; [exact Hpos | lia].
  - intros k Hk. unfold axes_mask. rewrite (fold_lor_bit axes 0 k Hpos Hk).
    rewrite Z.bits_0. split; [intros [? | ?]; [discriminate | assumption] | auto].
Qed.

(** A list with an axis that is not positive never gets through the
    loop: the assertion fails at the first such axis, unless the shift
    for an axis before it has already raised, which cannot happen for
    axes up to 32. *)
Lemma axes_loop_rejects (axes : list Z) (res : Z) (s : state F) :
  Exists (fun ax => ax <= 0) axes ->
  exists e : exn,
    axes_loop (map VInt axes) res s = (Raise e, s)
    /\ (Forall (fun ax => ax <= 32) axes -> e = AssertionError "").
Proof.
  intros Hex. revert res.
  induction axes as [| ax axes IH]; intros res; [inversion Hex |].
  simpl. unfold bind at 1. simpl.
  destruct (Z.ltb_spec 0 ax) as [Hpos | Hneg].
  - unfold bind. simpl.
    destruct (left_shift_uint32 1 (ax - 1)) as [shifted | e] eqn:Hshift; simpl.
    + destruct (IH ltac:(inversion Hex; subst; [lia | assumption]) (Z.lor res shifted))
        as (e & Hrun & He).
      exists e. split; [exact Hrun |].
      intros Hall. apply He. inversion Hall; assumption.
    + exists e. split; [reflexivity |].
      intros Hall. inversion Hall as [| ? ? Hle _]; subst.
      rewrite left_shift_small in Hshift by lia. discriminate.
  - exists (AssertionError ""). split; [reflexivity | reflexivity].
Qed.

Local Arguments axes_loop : simpl never.

(** X2. In conversion mode aten::sum fails when any of its axes is 0 or
    negative, and aten::max when its axis is; the failure comes before
    the reduce layer is added, so the network is left as it was.  The
    failure is the assertion error of the check on the axis, for
    aten::max always and for aten::sum whenever all its axes are at
    most 32; before the check reaches the offending axis, numpy may
    already have raised on a larger one. *)
Theorem reductions_reject_nonpositive_axis
        (ls : list (layer F)) (ts : list (ndarray F)) (t : ITensor)
        (axes : list Z) (dim : Z) (keepdim : value F) :
  Exists (fun ax => ax <= 0) axes ->
  dim <= 0 ->
  (exists e : exn,
      aten_sum [VTrt t; VList (map VInt axes); keepdim] (mk_state (Some ls) ts)
      = (Raise e, mk_state (Some ls) ts)
      /\ (Forall (fun ax => ax <= 32) axes -> e = AssertionError ""))
  /\ aten_max [VTrt t; VInt dim; keepdim] (mk_state (Some ls) ts)
     = (Raise (AssertionError ""), mk_state (Some ls) ts).
Proof.
  intros Hex Hdim. split.
  - destruct (axes_loop_rejects axes 0 (mk_state (Some ls) ts) Hex) as (e & Hrun & He).
    exists e. split; [| exact He].
    unfold aten_sum, _axes_to_trt_axis, bind, current_network. simpl.
    rewrite Hrun. reflexivity.
  - destruct (axes_loop_rejects [dim] 0 (mk_state (Some ls) ts)
                ltac:(constructor; exact Hdim)) as (e & Hrun & He).
    rewrite (He ltac:(repeat constructor; lia)) in Hrun.
    change (map VInt [dim]) with [@VInt F dim] in Hrun.
    unfold aten_max, _axes_to_trt_axis, bind, current_network. simpl.
    rewrite Hrun. reflexivity.
Qed.

(** ** Indexing Python lists *)

Lemma nth_error_lookup {A : Type} (l : list A) (k : nat) : nth_error l k = l !! k.
Proof. revert k; induction l as [| y l IH]; intros [| k]; simpl; auto. Qed.

Lemma norm_index_in_range {A : Type} (l : list A) (i : Z) :
  0 <= i < Z.of_nat (length l) -> norm_index l i = Some (Z.to_nat i).
Proof.
  intros Hi. unfold norm_index.
  destruct (Z.leb_spec 0 i); [| lia].
  destruct (Z.ltb_spec i (Z.of_nat (length l))); [| lia]. reflexivity.
Qed.

Lemma norm_index_beyond {A : Type} (l : list A) (i : Z) :
  Z.of_nat (length l) <= i -> norm_index l i = None.
Proof.
  intros Hi. unfold norm_index.
  destruct (Z.leb_spec 0 i); [| lia].
  destruct (Z.ltb_spec i (Z.of_nat (length l))); [lia |]. simpl.
  destruct (Z.leb_spec (- Z.of_nat (length l)) i); simpl; [| reflexivity].
  destruct (Z.ltb_spec i 0); [lia | reflexivity].
Qed.

Lemma getitem_in_range {A : Type} (l : list A) (i : Z) (x : A) (s : state F) :
  0 <= i -> l !! Z.to_nat i = Some x -> getitem l i s = (Ok x, s).
Proof.
  intros Hi Hl. unfold getitem.
  rewrite norm_index_in_range.
  - rewrite nth_error_lookup, Hl. reflexivity.
  - apply lookup_lt_Some in Hl. lia.
Qed.

Lemma setitem_in_range {A : Type} (l : list A) (i : Z) (x : A) (s : state F) :
  0 <= i < Z.of_nat (length l) ->
  setitem l i x s = (Ok (<[Z.to_nat i := x]> l), s).
Proof. intros Hi. unfold setitem. rewrite norm_index_in_range by exact Hi. reflexivity. Qed.

Lemma setitem_beyond {A : Type} (l : list A) (i : Z) (x : A) (s : state F) :
  Z.of_nat (length l) <= i -> setitem l i x s = (Raise IndexError, s).
Proof. intros Hi. unfold setitem. rewrite norm_index_beyond by exact Hi. reflexivity. Qed.

Lemma insert_repeat_same {A : Type} (x : A) (n k : nat) :
  <[k := x]> (repeat x n) = repeat x n.
Proof.
  revert k; induction n as [| n IH]; intros [| k]; simpl; try reflexivity.
  f_equal. apply IH.
Qed.

(** ** Slicing along a non-batch axis *)

Lemma trt_torch_slice_in_range
      (ls : list (layer F)) (ts : list (ndarray F)) (t : ITensor)
      (dim start end_ step extent : Z) :
  1 <= dim ->
  it_shape t !! Z.to_nat (dim - 1) = Some extent ->
  let k := Z.to_nat (dim - 1) in
  let n := length (it_shape t) in
  let sl := mk_layer (Slice (VTrt t)
                        (<[k := start]> (repeat 0 n))
                        (<[k := Z.min end_ extent - start]> (it_shape t))
                        (<[k := step]> (repeat 1 n))) [] in
  _trt_torch_slice (VTrt t) (VInt dim) (VInt start) (VInt end_) (VInt step)
                   (mk_state (Some ls) ts)
  = (Ok (VTrt (mk_ITensor (Some (length ls)) (output_shape sl))),
     mk_state (Some (ls ++ [sl])) ts).
Proof.
  intros Hdim Hext k n sl. subst k n sl.
  pose proof (lookup_lt_Some _ _ _ Hext) as Hlt.
  unfold _trt_torch_slice, bind. simpl.
  rewrite setitem_in_range by (rewrite repeat_length; lia).
  rewrite (getitem_in_range _ _ extent) by (lia || exact Hext).
  rewrite setitem_in_range by lia.
  rewrite setitem_in_range by (rewrite repeat_length; lia).
  run_handler. reflexivity.
Qed.

(** X3. In conversion mode aten::slice along axis dim, 1 <= dim <= rank,
    with step 1 adds one slice layer: start is [start] on axis dim-1 and
    0 elsewhere, the strides are all 1, and the sizes are those of the
    input except min(end, extent) - start on axis dim-1; so a slice from
    0 to an end at or past the extent keeps the shape of the input. *)
Theorem aten_slice_positive_axis
        (ls : list (layer F)) (ts : list (ndarray F)) (t : ITensor)
        (dim start end_ extent : Z) :
  1 <= dim ->
  it_shape t !! Z.to_nat (dim - 1) = Some extent ->
  let k := Z.to_nat (dim - 1) in
  let n := length (it_shape t) in
  let sizes := <[k := Z.min end_ extent - start]> (it_shape t) in
  let sl := mk_layer (Slice (VTrt t) (<[k := start]> (repeat 0 n)) sizes
                            (repeat 1 n)) [] in
  aten_slice [VTrt t; VInt dim; VInt start; VInt end_; VInt 1]
             (mk_state (Some ls) ts)
  = (Ok [VTrt (mk_ITensor (Some (length ls)) (output_shape sl))],
     mk_state (Some (ls ++ [sl])) ts)
  /\ (start = 0 -> extent <= end_ -> sizes = it_shape t).
Proof.
  intros Hdim Hext k n sizes sl. subst k n sizes sl. split.
  - unfold aten_slice, bind, current_network. simpl.
    destruct (Z.eqb_spec dim 0) as [? | _]; [lia |]. simpl.
    rewrite (trt_torch_slice_in_range ls ts t dim start end_ 1 extent Hdim Hext).
    rewrite insert_repeat_same. reflexivity.
  - intros -> Hend. apply list_insert_id.
    rewrite Hext. f_equal. lia.
Qed.

(** X4. In conversion mode aten::slice rejects an axis beyond the rank
    of its input: the assignment into the list of starts raises
    IndexError before any layer is added. *)
Theorem aten_slice_axis_beyond_rank
        (ls : list (layer F)) (ts : list (ndarray F)) (t : ITensor)
        (dim start end_ : Z) :
  Z.of_nat (length (it_shape t)) < dim ->
  aten_slice [VTrt t; VInt dim; VInt start; VInt end_; VInt 1]
             (mk_state (Some ls) ts)
  = (Raise IndexError, mk_state (Some ls) ts).
Proof.
  intros Hdim. unfold aten_slice, bind, current_network. simpl.
  destruct (Z.eqb_spec dim 0) as [? | _]; [lia |]. simpl.
  unfold _trt_torch_slice, bind. simpl.
  rewrite setitem_beyond by (rewrite repeat_length; lia). reflexivity.
Qed.

(** ** Reshaping: unsqueeze, select, view *)

Lemma prod_Z_app (l1 l2 : list Z) : prod_Z (l1 ++ l2) = prod_Z l1 * prod_Z l2.
Proof.
  induction l1 as [| y l1 IH]; simpl.
  - change (prod_Z []) with 1. lia.
  - change (prod_Z (y :: l1 ++ l2)) with (y * prod_Z (l1 ++ l2)).
    change (prod_Z (y :: l1)) with (y * prod_Z l1). rewrite IH. lia.
Qed.

Lemma py_insert_unit (s : list Z) (i : Z) :
  length (py_insert s i 1) = S (length s)
  /\ prod_Z (py_insert s i 1) = prod_Z s.
Proof.
  unfold py_insert.
  set (k := Z.to_nat _). split.
  - rewrite length_app. simpl.
    rewrite <- (firstn_skipn k s) at 3. rewrite length_app. lia.
  - rewrite prod_Z_app.
    change (prod_Z (1 :: skipn k s)) with (1 * prod_Z (skipn k s)).
    rewrite <- (firstn_skipn k s) at 3. rewrite prod_Z_app. lia.
Qed.

Lemma py_insert_past_end (s : list Z) (i : Z) :
  Z.of_nat (length s) <= i -> py_insert s i 1 = s ++ [1].
Proof.
  intros Hi. unfold py_insert.
  destruct (Z.ltb_spec i 0); [lia |].
  rewrite Z.min_r by lia. rewrite Nat2Z.id.
  rewrite firstn_all, skipn_all. reflexivity.
Qed.

(** X5. In conversion mode aten::unsqueeze with a positive axis adds one
    shuffle layer whose reshape dimensions are the shape of the input
    with a 1 inserted at position dim-1: one axis more, the same number
    of elements.  An axis past the end is not rejected: the 1 is
    appended. *)
Theorem aten_unsqueeze_inserts_unit_axis
        (ls : list (layer F)) (ts : list (ndarray F)) (t : ITensor) (dim : Z) :
  0 < dim ->
  let dims := py_insert (it_shape t) (dim - 1) 1 in
  let sh := mk_layer (Shuffle (VTrt t)) [("reshape_dims", VList (map VInt dims))] in
  aten_unsqueeze [VTrt t; VInt dim] (mk_state (Some ls) ts)
  = (Ok [VTrt (mk_ITensor (Some (length ls)) (output_shape sh))],
     mk_state (Some (ls ++ [sh])) ts)
  /\ length dims = S (length (it_shape t))
  /\ prod_Z dims = prod_Z (it_shape t)
  /\ (Z.of_nat (length (it_shape t)) < dim -> dims = it_shape t ++ [1]).
Proof.
  intros Hdim dims sh. subst dims sh.
  destruct (py_insert_unit (it_shape t) (dim - 1)) as [Hlen Hprod].
  split; [| split; [exact Hlen | split; [exact Hprod |]]].
  - unfold aten_unsqueeze, _trt_unsqueeze, bind, current_network. simpl.
    destruct (Z.ltb_spec 0 dim) as [_ | ?]; [| lia]. simpl.
    run_handler. reflexivity.
  - intros Hpast. apply py_insert_past_end. lia.
Qed.

Lemma prod_Z_delete_unit (s : list Z) (k : nat) :
  s !! k = Some 1 -> prod_Z (delete k s) = prod_Z s.
Proof.
  intros Hk. rewrite delete_take_drop.
  rewrite <- (take_drop_middle s k 1 Hk) at 3.
  rewrite !prod_Z_app.
  change (prod_Z (1 :: drop (S k) s)) with (1 * prod_Z (drop (S k) s)). lia.
Qed.

(** X6. In conversion mode aten::select along axis dim, 1 <= dim <= rank,
    at an index inside the extent composes a slice of width 1 with a
    squeeze: it adds a slice layer starting at the index on axis dim-1
    and a shuffle layer whose reshape dimensions are the input shape
    without that axis.  The engine is one whose slice layer has the
    extents it was asked for. *)
Theorem aten_select_slices_then_squeezes
        (ls : list (layer F)) (ts : list (ndarray F)) (t : ITensor)
        (dim index extent : Z) :
  (forall (i : value F) (st sz sr : list Z),
      output_shape (mk_layer (Slice i st sz sr) []) = sz) ->
  1 <= dim ->
  it_shape t !! Z.to_nat (dim - 1) = Some extent ->
  0 <= index < extent ->
  let k := Z.to_nat (dim - 1) in
  let n := length (it_shape t) in
  let sl := mk_layer (Slice (VTrt t) (<[k := index]> (repeat 0 n))
                            (<[k := 1]> (it_shape t)) (repeat 1 n)) [] in
  let sliced := mk_ITensor (Some (length ls)) (<[k := 1]> (it_shape t)) in
  let sh := mk_layer (Shuffle (VTrt sliced))
                     [("reshape_dims", VList (map VInt (delete k (it_shape t))))] in
  aten_select [VTrt t; VInt dim; VInt index] (mk_state (Some ls) ts)
  = (Ok [VTrt (mk_ITensor (Some (S (length ls))) (output_shape sh))],
     mk_state (Some (ls ++ [sl; sh])) ts)
  /\ prod_Z (delete k (it_shape t)) = prod_Z (it_shape sliced).
Proof.
  intros Hslice Hdim Hext Hidx k n sl sliced sh. subst k n sl sliced sh.
  pose proof (lookup_lt_Some _ _ _ Hext) as Hlt.
  split.
  2:{ simpl.
      rewrite <- (prod_Z_delete_unit (<[Z.to_nat (dim - 1) := 1]> (it_shape t))
                                     (Z.to_nat (dim - 1)))
        by (apply list_lookup_insert_eq; exact Hlt).
      rewrite !delete_take_drop, take_insert_ge, drop_insert_lt by lia.
      reflexivity. }
  unfold aten_select, print_inputs, bind, current_network. simpl.
  destruct (Z.ltb_spec 0 dim) as [_ | ?]; [| lia]. simpl.
  rewrite (trt_torch_slice_in_range ls ts t dim index (index + 1) 1 extent Hdim Hext).
  rewrite Hslice, insert_repeat_same.
  replace (Z.min (index + 1) extent - index) with 1 by lia.
  unfold _trt_squeeze, bind. simpl.
  destruct (Z.ltb_spec 0 dim) as [_ | ?]; [| lia]. simpl.
  rewrite (getitem_in_range _ _ 1)
    by (lia || (apply list_lookup_insert_eq; exact Hlt)).
  simpl.
  rewrite norm_index_in_range by (rewrite length_insert; lia). simpl.
  run_handler.
  rewrite <- app_assoc, length_app. simpl.
  replace (length ls + 1)%nat with (S (length ls)) by lia.
  rewrite delete_take_drop, take_insert_ge, drop_insert_lt by lia.
  rewrite <- delete_take_drop. reflexivity.
Qed.

(** X7. In conversion mode aten::select at an index at or past the
    extent of the axis fails at the squeeze, whose assertion finds a
    sliced extent other than 1; the slice layer has already been added
    and stays in the network. *)
Theorem aten_select_index_out_of_range
        (ls : list (layer F)) (ts : list (ndarray F)) (t : ITensor)
        (dim index extent : Z) :
  (forall (i : value F) (st sz sr : list Z),
      output_shape (mk_layer (Slice i st sz sr) []) = sz) ->
  1 <= dim ->
  it_shape t !! Z.to_nat (dim - 1) = Some extent ->
  0 <= extent <= index ->
  let k := Z.to_nat (dim - 1) in
  let n := length (it_shape t) in
  let sl := mk_layer (Slice (VTrt t) (<[k := index]> (repeat 0 n))
                            (<[k := extent - index]> (it_shape t)) (repeat 1 n)) [] in
  aten_select [VTrt t; VInt dim; VInt index] (mk_state (Some ls) ts)
  = (Raise (AssertionError ""), mk_state (Some (ls ++ [sl])) ts).
Proof.
  intros Hslice Hdim Hext Hidx k n sl. subst k n sl.
  pose proof (lookup_lt_Some _ _ _ Hext) as Hlt.
  unfold aten_select, print_inputs, bind, current_network. simpl.
  destruct (Z.ltb_spec 0 dim) as [_ | ?]; [| lia]. simpl.
  rewrite (trt_torch_slice_in_range ls ts t dim index (index + 1) 1 extent Hdim Hext).
  rewrite Hslice, insert_repeat_same.
  replace (Z.min (index + 1) extent - index) with (extent - index) by lia.
  unfold _trt_squeeze, bind. simpl.
  destruct (Z.ltb_spec 0 dim) as [_ | ?]; [| lia]. simpl.
  rewrite (getitem_in_range _ _ (extent - index))
    by (lia || (apply list_lookup_insert_eq; exact Hlt)).
  simpl.
  destruct (Z.eqb_spec (extent - index) 1) as [? | _]; [lia |]. reflexivity.
Qed.

(** X8. In conversion mode aten::view drops the batch entry of the target
    shape and adds one shuffle layer with the remaining dimensions; when
    exactly one dimension remains, two trailing dimensions of extent 1
    are appended, so the layer reshapes to rank 3 and to the same number
    of elements. *)
Theorem aten_view_reshape_dims
        (ls : list (layer F)) (ts : list (ndarray F)) (t : ITensor)
        (batch : value F) (dims : list Z) :
  let reshape := if Nat.eqb (length dims) 1 then dims ++ [1; 1] else dims in
  let sh := mk_layer (Shuffle (VTrt t)) [("reshape_dims", VList (map VInt reshape))] in
  aten_view [VTrt t; VList (batch :: map VInt dims)] (mk_state (Some ls) ts)
  = (Ok [VTrt (mk_ITensor (Some (length ls)) (output_shape sh))],
     mk_state (Some (ls ++ [sh])) ts)
  /\ prod_Z reshape = prod_Z dims
  /\ (length dims = 1%nat -> length reshape = 3%nat).
Proof.
  intros reshape sh. subst reshape sh. split; [| split].
  - unfold aten_view, bind, current_network. simpl.
    change (drop 0 (map VInt dims)) with (map (@VInt F) dims).
    rewrite length_map.
    destruct (Nat.eqb (length dims) 1); simpl; run_handler.
    + rewrite map_app. reflexivity.
    + reflexivity.
  - destruct (Nat.eqb (length dims) 1); [| reflexivity].
    rewrite prod_Z_app. change (prod_Z [1; 1]) with 1. lia.
  - intros Hlen. rewrite Hlen. simpl. rewrite length_app, Hlen. reflexivity.
Qed.

(** ** aten::permute *)

Lemma mapM_pure {A B : Type} (f : A -> M F B) (g : A -> B) (l : list A) (s : state F) :
  (forall x, In x l -> f x s = (Ok (g x), s)) ->
  mapM f l s = (Ok (map g l), s).
Proof.
  induction l as [| y l IH]; intros Hf; [reflexivity |].
  simpl. unfold bind. rewrite (Hf y) by (left; reflexivity).
  rewrite IH by (intros x Hx; apply Hf; right; exact Hx). reflexivity.
Qed.

Ltac map_ints g :=
  rewrite (mapM_pure _ g)
    by (let x := fresh "x" in let Hx := fresh "Hx" in let m := fresh "m" in
        intros x Hx; apply in_map_iff in Hx as (m & <- & _); reflexivity);
  rewrite ?map_map; simpl.

Lemma shifted_axes (n : nat) :
  map (fun p => p - 1) (map Z.of_nat (seq 1 n)) = map Z.of_nat (seq 0 n).
Proof.
  rewrite <- seq_shift, !map_map. apply map_ext. intros k. lia.
Qed.

(** X9. In conversion mode aten::permute of a permutation that keeps the
    batch axis in front (its entries after the first are a rearrangement
    of 1..n) adds one shuffle layer whose transpose order is those
    entries each decremented by 1, and that order is a rearrangement of
    0..n-1. *)
Theorem aten_permute_transpose_order
        (ls : list (layer F)) (ts : list (ndarray F)) (t : ITensor)
        (first : value F) (q : list Z) (n : nat) :
  Permutation q (map Z.of_nat (seq 1 n)) ->
  let order := map (fun p => p - 1) q in
  let sh := mk_layer (Shuffle (VTrt t)) [("first_transpose", VList (map VInt order))] in
  aten_permute [VTrt t; VList (first :: map VInt q)] (mk_state (Some ls) ts)
  = (Ok [VTrt (mk_ITensor (Some (length ls)) (output_shape sh))],
     mk_state (Some (ls ++ [sh])) ts)
  /\ Permutation order (map Z.of_nat (seq 0 n)).
Proof.
  intros Hperm order sh. subst order sh. split.
  - assert (Hpos : forallb (fun b : bool => b) (map (fun p => 0 <? p) q) = true).
    { apply forallb_forall. intros b Hb.
      apply in_map_iff in Hb as (p & <- & Hp).
      apply (Permutation_in _ Hperm) in Hp.
      apply in_map_iff in Hp as (m & <- & Hm). apply in_seq in Hm.
      apply Z.ltb_lt. lia. }
    unfold aten_permute, bind, current_network. simpl.
    change (drop 0 (map VInt q)) with (map (@VInt F) q).
    map_ints (fun p : value F => match p with VInt m => 0 <? m | _ => false end).
    rewrite Hpos. simpl.
    map_ints (fun p : value F => match p with VInt m => @VInt F (m - 1) | _ => VNone end).
    run_handler. rewrite ?map_map. reflexivity.
  - rewrite <- shifted_axes. apply Permutation_map. exact Hperm.
Qed.

(** X10. In conversion mode aten::permute fails with an assertion error,
    before any layer is added, when 0 or a negative axis occurs after
    the first entry of the permutation: a permutation that moves the
    batch axis is rejected. *)
Theorem aten_permute_rejects_moved_batch_axis
        (ls : list (layer F)) (ts : list (ndarray F)) (t : ITensor)
        (first : value F) (q : list Z) :
  Exists (fun p => p <= 0) q ->
  aten_permute [VTrt t; VList (first :: map VInt q)] (mk_state (Some ls) ts)
  = (Raise (AssertionError ""), mk_state (Some ls) ts).
Proof.
  intros Hex.
  assert (Hneg : forallb (fun b : bool => b) (map (fun p => 0 <? p) q) = false).
  { apply not_true_is_false. intros Hall.
    rewrite forallb_forall in Hall.
    apply Exists_exists in Hex as (p & Hp & Hle).
    apply list_elem_of_In in Hp.
    specialize (Hall (0 <? p) (in_map _ _ _ Hp)).
    apply Z.ltb_lt in Hall. lia. }
  unfold aten_permute, bind, current_network. simpl.
  change (drop 0 (map VInt q)) with (map (@VInt F) q).
  map_ints (fun p : value F => match p with VInt m => 0 <? m | _ => false end).
  rewrite Hneg. reflexivity.
Qed.

(** ** aten::cat and aten::avg_pool2d *)

(** X11. In conversion mode aten::cat along a positive axis adds one
    concatenation layer over its operands with the axis set to dim-1;
    along axis 0 or a negative axis it fails with an assertion error
    before any layer is added. *)
Theorem aten_cat_axis
        (ls : list (layer F)) (ts : list (ndarray F))
        (tensors : list (value F)) (dim : Z) :
  has_trt_tensor tensors = true ->
  let cat := mk_layer (Concatenation (VList tensors)) [("axis", VInt (dim - 1))] in
  aten_cat [VList tensors; VInt dim] (mk_state (Some ls) ts)
  = if 0 <? dim
    then (Ok [VTrt (mk_ITensor (Some (length ls)) (output_shape cat))],
          mk_state (Some (ls ++ [cat])) ts)
    else (Raise (AssertionError ""), mk_state (Some ls) ts).
Proof.
  intros Hsym cat. subst cat.
  unfold aten_cat, bind, current_network. simpl. rewrite Hsym. simpl.
  destruct (0 <? dim); simpl; run_handler; reflexivity.
Qed.

(** X12. In conversion mode aten::avg_pool2d adds one average-pooling
    layer with the given kernel, stride and padding, and excludes the
    padding from the averaging count exactly when count_include_pad is
    false; the layer does not depend on ceil_mode, which is ignored. *)
Theorem aten_avg_pool2d_ignores_ceil_mode
        (ls : list (layer F)) (ts : list (ndarray F)) (t : ITensor)
        (ksize stride pad ceil_mode count_include_pad : value F)
        (rest : list (value F)) :
  let pool := mk_layer (Pooling (VTrt t) AVERAGE ksize)
                [("average_count_excludes_padding",
                  VBool (negb (truthy count_include_pad)));
                 ("padding", pad); ("stride", stride)] in
  aten_avg_pool2d
    (VTrt t :: ksize :: stride :: pad :: ceil_mode :: count_include_pad :: rest)
    (mk_state (Some ls) ts)
  = (Ok [VTrt (mk_ITensor (Some (length ls)) (output_shape pool))],
     mk_state (Some (ls ++ [pool])) ts).
Proof.
  intros pool. subst pool.
  unfold aten_avg_pool2d. run_handler. reflexivity.
Qed.

(** ** The other branches of the elementwise dispatch *)

(** X13. In conversion mode, with two symbolic operands, each of the six
    arithmetic handlers adds exactly one elementwise layer on the two
    operands in their order, with mode SUM for add and add_, SUB for
    sub, PROD for mul and mul_, and DIV for div. *)
Theorem elementwise_two_symbolic_operands
        (ls : list (layer F)) (ts : list (ndarray F)) (x y : ITensor) :
  let st := mk_state (Some ls) ts in
  let ew := fun eop : ElementWiseOperation =>
    let l := mk_layer (ElementWise (VTrt x) (VTrt y) eop) [] in
    (Ok [VTrt (mk_ITensor (Some (length ls)) (output_shape l))],
     mk_state (Some (ls ++ [l])) ts) in
  aten_add [VTrt x; VTrt y; VInt 1] st = ew SUM
  /\ aten_add_ [VTrt x; VTrt y; VInt 1] st = ew SUM
  /\ aten_sub [VTrt x; VTrt y; VInt 1] st = ew SUB
  /\ aten_mul [VTrt x; VTrt y] st = ew PROD
  /\ aten_mul_ [VTrt x; VTrt y] st = ew PROD
  /\ aten_div [VTrt x; VTrt y] st = ew DIV.
Proof.
  intros st ew. subst st ew. cbv beta zeta.
  repeat split;
    unfold aten_add, aten_add_, aten_sub, aten_mul, aten_mul_, aten_div,
      bind, current_network; simpl;
    unfold _scale_or_elementwise; simpl; run_handler; reflexivity.
Qed.

Lemma try_convert_to_constant_right
      (ls : list (layer F)) (ts : list (ndarray F)) (r : ref) (x : ITensor)
      (val : ndarray F) :
  ts !! r = Some val ->
  nd_shape val <> [] ->
  let a := constant_of (length (it_shape x)) val in
  let const := mk_layer (Constant (nd_shape a) (Weights_of a)) [] in
  try_convert_to_constant [VTrt x; VTensor r] (mk_state (Some ls) ts)
  = (Ok [VTrt x; VTrt (mk_ITensor (Some (length ls)) (output_shape const))],
     mk_state (Some (ls ++ [const])) ts).
Proof.
  intros Hr Hrank a const. subst a const.
  unfold try_convert_to_constant, constant_of. simpl mapM. unfold bind.
  simpl. rewrite Hr. simpl.
  pose proof (downcast_shape val) as Hcast.
  set (a1 := if dtype_eqb (nd_dtype val) float64 then np_astype val float32 else val)
    in *.
  destruct (nd_shape a1) as [| d sh] eqn:Hsh; simpl.
  - exfalso. apply Hrank. symmetry. exact Hcast.
  - run_handler. rewrite Hsh. reflexivity.
Qed.

Lemma elementwise_right_real_many
      (ls : list (layer F)) (ts : list (ndarray F)) (r : ref) (x : ITensor)
      (val : ndarray F) (op : string) (eop : ElementWiseOperation) :
  trt_op op = Some eop ->
  ts !! r = Some val ->
  nd_size val <> 1 ->
  let a := constant_of (length (it_shape x)) val in
  let const := mk_layer (Constant (nd_shape a) (Weights_of a)) [] in
  let c_out := VTrt (mk_ITensor (Some (length ls)) (output_shape const)) in
  let ew := mk_layer (ElementWise (VTrt x) c_out eop) [] in
  _scale_or_elementwise (VTrt x) (VTensor r) op (mk_state (Some ls) ts)
  = (Ok (VTrt (mk_ITensor (Some (S (length ls))) (output_shape ew))),
     mk_state (Some (ls ++ [const; ew])) ts).
Proof.
  intros Hop Hr Hsize a const c_out ew.
  unfold _scale_or_elementwise. rewrite Hop. unfold bind at 1 2. simpl.
  unfold bind. simpl. rewrite Hr. simpl.
  destruct (Z.eqb_spec (nd_size val) 1) as [? | _]; [contradiction |].
  assert (Hrank : nd_shape val <> []).
  { intros Hnil. apply Hsize. unfold nd_size. rewrite Hnil. reflexivity. }
  rewrite (try_convert_to_constant_right ls ts r x val Hr Hrank).
  fold a const c_out. run_handler. fold ew.
  rewrite <- app_assoc, length_app. simpl.
  replace (length ls + 1)%nat with (S (length ls)) by lia. reflexivity.
Qed.

(** X14. In conversion mode, when the right operand is a real tensor
    with more than one element (its size is not 1) and the left operand
    is symbolic, each of the six arithmetic handlers materializes the
    tensor as a constant layer and then adds an elementwise layer of the
    symbolic operand and the constant, in that order, with the
    operator's mode. *)
Theorem elementwise_materializes_larger_tensor
        (ls : list (layer F)) (ts : list (ndarray F)) (x : ITensor) (r : ref)
        (val : ndarray F) :
  ts !! r = Some val ->
  nd_size val <> 1 ->
  let st := mk_state (Some ls) ts in
  let built := fun eop : ElementWiseOperation =>
    let a := constant_of (length (it_shape x)) val in
    let const := mk_layer (Constant (nd_shape a) (Weights_of a)) [] in
    let c_out := VTrt (mk_ITensor (Some (length ls)) (output_shape const)) in
    let ew := mk_layer (ElementWise (VTrt x) c_out eop) [] in
    (Ok [VTrt (mk_ITensor (Some (S (length ls))) (output_shape ew))],
     mk_state (Some (ls ++ [const; ew])) ts) in
  aten_add [VTrt x; VTensor r; VInt 1] st = built SUM
  /\ aten_add_ [VTrt x; VTensor r; VInt 1] st = built SUM
  /\ aten_sub [VTrt x; VTensor r; VInt 1] st = built SUB
  /\ aten_mul [VTrt x; VTensor r] st = built PROD
  /\ aten_mul_ [VTrt x; VTensor r] st = built PROD
  /\ aten_div [VTrt x; VTensor r] st = built DIV.
Proof.
  intros Hr Hsize st built. subst st built. cbv beta zeta.
  repeat split;
    unfold aten_add, aten_add_, aten_sub, aten_mul, aten_mul_, aten_div,
      bind, current_network; simpl;
    match goal with
    | |- context [_scale_or_elementwise _ _ ?op _] =>
        match eval cbv in (trt_op op) with
        | Some ?eop =>
            rewrite (elementwise_right_real_many ls ts r x val op eop
                       eq_refl Hr Hsize)
        end
    end;
    reflexivity.
Qed.

(** X15. aten::add, aten::add_ and aten::sub accept only alpha = 1: with
    any other alpha they fail with an assertion error in conversion mode
    and in fallback mode alike, and neither the network nor any tensor
    is touched. *)
Theorem add_sub_require_unit_alpha
        (s : state F) (lfs rfs alpha : value F) :
  eq_int alpha 1 = false ->
  aten_add [lfs; rfs; alpha] s = (Raise (AssertionError ""), s)
  /\ aten_add_ [lfs; rfs; alpha] s = (Raise (AssertionError ""), s)
  /\ aten_sub [lfs; rfs; alpha] s = (Raise (AssertionError ""), s).
Proof.
  intros Halpha.
  repeat split;
    unfold aten_add, aten_add_, aten_sub, bind, current_network; simpl;
    rewrite Halpha; reflexivity.
Qed.

(** X18. Constant materialization next to a symbolic operand: when the
    operand list holds a symbolic tensor, the last of them of rank at
    least 1, and every real tensor of it is in the store,
    try_convert_to_constant succeeds; it appends one
    constant layer per real tensor and nothing else, no constant holds
    float64 data, no real tensor remains in the result, and every
    operand that is not a real tensor is passed through at its
    position.  The tensor store is not touched. *)
Theorem try_convert_to_constant_invariant
        (ls : list (layer F)) (ts : list (ndarray F)) (inputs : list (value F))
        (rs : list Z) :
  ref_shape_of inputs = Some rs ->
  rs <> [] ->
  Forall (fun v => forall r, v = VTensor r -> is_Some (ts !! r)) inputs ->
  exists (outs : list (value F)) (new : list (layer F)),
    try_convert_to_constant inputs (mk_state (Some ls) ts)
    = (Ok outs, mk_state (Some (ls ++ new)) ts)
    /\ length outs = length inputs
    /\ Forall (fun v => is_tensor v = false) outs
    /\ (forall (i : nat) (v : value F),
          inputs !! i = Some v -> is_tensor v = false -> outs !! i = Some v)
    /\ length new = length (List.filter is_tensor inputs)
    /\ Forall (fun l => exists a : ndarray F,
                          l_call l = Constant (nd_shape a) (Weights_of a)
                          /\ nd_dtype a <> float64) new.
Proof.
  intros Href Hrank Hall. unfold try_convert_to_constant. cbv zeta.
  rewrite Href. clear Href.
  destruct rs as [| extent rs]; [contradiction |]. clear Hrank.
  match goal with |- context [mapM ?f _ _] => set (body := f) end.
  revert ls.
  induction Hall as [| v l Hv Hall IH]; intros ls.
  - exists [], []. simpl. rewrite app_nil_r.
    repeat split; auto.
  - simpl mapM.
    destruct (is_tensor v) eqn:Hten.
    + destruct v; try discriminate.
      destruct (Hv _ eq_refl) as [a Ha].
      set (a1 := if dtype_eqb (nd_dtype a) float64 then np_astype a float32 else a).
      assert (Hdt : nd_dtype a1 <> float64).
      { subst a1. destruct (dtype_eqb (nd_dtype a) float64) eqn:Hd.
        - simpl. discriminate.
        - intros Heq. rewrite Heq in Hd. discriminate. }
      set (a2 := match nd_shape a1 with
                 | [] => mk_ndarray (nd_dtype a1) (repeat 1 (length (extent :: rs)))
                                    (nd_data a1)
                 | _ :: _ => a1
                 end).
      assert (Hdt2 : nd_dtype a2 <> float64).
      { subst a2. destruct (nd_shape a1); exact Hdt. }
      pose (const := mk_layer (Constant (nd_shape a2) (Weights_of a2)) []).
      assert (Hstep :
        body (VTensor r) (mk_state (Some ls) ts)
        = (Ok (VTrt (mk_ITensor (Some (length ls)) (output_shape const))),
           mk_state (Some (ls ++ [const])) ts)).
      { unfold body. simpl. unfold bind. simpl. rewrite Ha. simpl. fold a1.
        subst const a2. destruct (nd_shape a1) as [| d sh] eqn:Hsh; simpl.
        - unfold np_reshape, nd_size. rewrite Hsh.
          change (prod_Z (1 :: repeat 1 (length rs)))
            with (prod_Z (repeat 1 (S (length rs)))).
          rewrite prod_Z_ones. simpl.
          run_handler. reflexivity.
        - run_handler. rewrite Hsh. reflexivity. }
      destruct (IH (ls ++ [const])) as (outs & new & Hrun & Hlen & Hout & Hpass & Hnew & Hc).
      exists (VTrt (mk_ITensor (Some (length ls)) (output_shape const)) :: outs),
             (const :: new).
      split; [| repeat split].
      * unfold bind. rewrite Hstep, Hrun. simpl.
        rewrite <- app_assoc. reflexivity.
      * simpl. rewrite Hlen. reflexivity.
      * constructor; [reflexivity | exact Hout].
      * intros i v Hi Hv'. destruct i as [| i]; simpl in *.
        { injection Hi as <-. discriminate. }
        { apply Hpass; assumption. }
      * simpl. rewrite Hnew. reflexivity.
      * constructor; [| exact Hc]. exists a2. split; [reflexivity | exact Hdt2].
    + assert (Hstep : forall st, body v st = (Ok v, st)).
      { intros st. unfold body. rewrite Hten. reflexivity. }
      destruct (IH ls) as (outs & new & Hrun & Hlen & Hout & Hpass & Hnew & Hc).
      exists (v :: outs), new.
      split; [| repeat split].
      * unfold bind. rewrite Hstep, Hrun. reflexivity.
      * simpl. rewrite Hlen. reflexivity.
      * constructor; [exact Hten | exact Hout].
      * intros i v' Hi Hv'. destruct i as [| i]; simpl in *.
        { exact Hi. }
        { apply Hpass; assumption. }
      * simpl. rewrite Hten. exact Hnew.
      * exact Hc.
Qed.

(** ** Failures of aten::_convolution and aten::adaptive_avg_pool2d *)

(** X16. In conversion mode aten::_convolution fails with an assertion
    error when an entry of output_padding is not 0, and, the output
    padding being all zero, when the weight does not have exactly two
    kernel axes; both checks precede the layer construction, so the
    network is left as it was. *)
Theorem aten_convolution_rejections
        (ls : list (layer F)) (ts : list (ndarray F)) (x : ITensor) (rw : ref)
        (w : ndarray F) (d0 d1 g : Z) (ksize : list Z) (bias : value F)
        (stride pad dilation opad : list (value F)) (tr : bool) :
  ts !! rw = Some w ->
  nd_shape w = d0 :: d1 :: ksize ->
  forallb (fun e => eq_int e 0) opad = false \/ length ksize <> 2%nat ->
  aten_convolution
    [VTrt x; VTensor rw; bias; VList stride; VList pad; VList dilation;
     VBool tr; VList opad; VInt g]
    (mk_state (Some ls) ts)
  = (Raise (AssertionError
              (if forallb (fun e => eq_int e 0) opad
               then "tensorrt only support 2d conv"
               else "tensor rt don't support out padding")),
     mk_state (Some ls) ts).
Proof.
  intros Hw Hshape Hbad.
  unfold aten_convolution, bind, current_network. simpl.
  destruct (forallb (fun e => eq_int e 0) opad) eqn:Hopad; simpl; [| reflexivity].
  destruct Hbad as [? | Hk]; [discriminate |].
  unfold bind. rewrite (numpy_tensor _ _ _ _ Hw). simpl. rewrite Hshape. simpl.
  assert (Hneq : Nat.eqb (length ksize) 2 = false) by (apply Nat.eqb_neq; exact Hk).
  destruct tr; simpl; rewrite Hneq; reflexivity.
Qed.

(** X17. In conversion mode aten::adaptive_avg_pool2d raises
    ZeroDivisionError, not an assertion error, when a target size is 0
    or exceeds the extent of its axis (the kernel extent // target is
    then 0, and the divisibility test divides by it); no layer is
    added. *)
Theorem aten_adaptive_avg_pool2d_zero_division
        (ls : list (layer F)) (ts : list (ndarray F)) (p : option nat)
        (c h w th tw : Z) :
  0 <= h -> 0 <= w -> 0 <= th -> 0 <= tw ->
  th = 0 \/ tw = 0 \/ h < th \/ w < tw ->
  aten_adaptive_avg_pool2d
    [VTrt (mk_ITensor p [c; h; w]); VList [VInt th; VInt tw]]
    (mk_state (Some ls) ts)
  = (Raise ZeroDivisionError, mk_state (Some ls) ts).
Proof.
  intros Hh Hw Hth Htw Hbad.
  unfold aten_adaptive_avg_pool2d. run_handler.
  unfold floordiv, pymod, bind, ret.
  destruct (Z.eqb_spec th 0) as [? | Hth0]; simpl; [reflexivity |].
  destruct (Z.eqb_spec tw 0) as [? | Htw0]; simpl; [reflexivity |].
  destruct (Z.eqb_spec (h / th) 0) as [? | Hkh]; simpl; [reflexivity |].
  destruct (Z.eqb_spec (w / tw) 0) as [? | Hkw]; simpl; [reflexivity |].
  exfalso. destruct Hbad as [? | [? | [Hlt | Hlt]]]; try contradiction.
  - apply Hkh. apply Z.div_small. lia.
  - apply Hkw. apply Z.div_small. lia.
Qed.

(** X19. When each target size is positive and divides the extent of
    its axis, aten::adaptive_avg_pool2d in conversion mode adds one
    average-pooling layer whose kernel is extent / target on each axis,
    so that kernel times target is the extent. *)
Theorem aten_adaptive_avg_pool2d_divisible
        (ls : list (layer F)) (ts : list (ndarray F)) (p : option nat)
        (c h w th tw : Z) :
  0 < th -> 0 < tw -> 0 < h -> 0 < w -> h mod th = 0 -> w mod tw = 0 ->
  let inp := VTrt (mk_ITensor p [c; h; w]) in
  let pool := mk_layer (Pooling inp AVERAGE (VList [VInt (h / th); VInt (w / tw)])) [] in
  aten_adaptive_avg_pool2d [inp; VList [VInt th; VInt tw]] (mk_state (Some ls) ts)
  = (Ok [VTrt (mk_ITensor (Some (length ls)) (output_shape pool))],
     mk_state (Some (ls ++ [pool])) ts)
  /\ h / th * th = h /\ w / tw * tw = w.
Proof.
  intros Hth Htw Hh Hw Hmh Hmw inp pool. subst inp pool. split.
  - apply aten_adaptive_avg_pool2d_exact; assumption.
  - apply Z.div_exact in Hmh, Hmw; lia.
Qed.

(** ** aten::addmm and aten::constant_pad_nd *)

(** X20. In conversion mode aten::addmm, given beta = alpha = 1, a
    one-dimensional real bias and a real weight, adds one
    fully-connected layer on the symbolic input whose kernel is the
    transposed weight (computed by the tensor library, which adds it to
    the tensor store), whose bias is the bias array and whose number of
    outputs is the first extent of the transposed weight. *)
Theorem aten_addmm_fully_connected
        (ls : list (layer F)) (ts : list (ndarray F)) (x : ITensor)
        (rb rw : ref) (b wt : ndarray F) (c : Z) (rest : list Z) :
  ts !! rb = Some b ->
  length (nd_shape b) = 1%nat ->
  torch_fn "t" [VTensor rw] ts = Ok wt ->
  nd_shape wt = c :: rest ->
  let fc := mk_layer (FullyConnected (VTrt x) c (Weights_of wt) (Weights_of b)) [] in
  aten_addmm [VTensor rb; VTrt x; VTensor rw; VInt 1; VInt 1] (mk_state (Some ls) ts)
  = (Ok [VTrt (mk_ITensor (Some (length ls)) (output_shape fc))],
     mk_state (Some (ls ++ [fc])) (ts ++ [wt])).
Proof.
  intros Hb Hrank Ht Hshape fc. subst fc.
  assert (Hb' : (ts ++ [wt]) !! rb = Some b).
  { rewrite lookup_app_l; [exact Hb |]. eapply lookup_lt_Some. exact Hb. }
  assert (Hwt : (ts ++ [wt]) !! length ts = Some wt) by (apply list_lookup_middle; auto).
  unfold aten_addmm, bind, current_network. simpl.
  unfold has_trt_tensor. simpl.
  unfold bind. simpl. rewrite Hb. simpl. rewrite Hrank. simpl.
  unfold torch_call. simpl. rewrite Ht. simpl.
  match goal with
  | |- context [match ?e with Some _ => _ | None => _ end] =>
      replace e with (Some wt) by (symmetry; exact Hwt)
  end.
  simpl. rewrite Hb'. simpl. rewrite Hshape. simpl.
  run_handler. reflexivity.
Qed.

(** X21. In conversion mode aten::addmm fails with an assertion error
    when beta or alpha is not 1, and, beta and alpha being 1, when the
    bias is not one-dimensional; in both cases before anything is
    computed: the network and the tensor store are unchanged. *)
Theorem aten_addmm_rejections
        (ls : list (layer F)) (ts : list (ndarray F)) (x : ITensor)
        (rb : ref) (b : ndarray F) (mat2 beta alpha : value F) :
  ts !! rb = Some b ->
  eq_int beta 1 && eq_int alpha 1 = false \/ length (nd_shape b) <> 1%nat ->
  aten_addmm [VTensor rb; VTrt x; mat2; beta; alpha] (mk_state (Some ls) ts)
  = (Raise (AssertionError ""), mk_state (Some ls) ts).
Proof.
  intros Hb Hbad.
  unfold aten_addmm, bind, current_network. simpl.
  unfold has_trt_tensor. simpl.
  destruct (eq_int beta 1 && eq_int alpha 1) eqn:Hba; simpl; [| reflexivity].
  destruct Hbad as [? | Hrank]; [discriminate |].
  unfold bind. simpl. rewrite Hb. simpl.
  apply Nat.eqb_neq in Hrank. rewrite Hrank. reflexivity.
Qed.

(** X22. In conversion mode aten::constant_pad_nd accepts only the fill
    value 0 (assertion error otherwise) and only a pad list of exactly
    four entries (ValueError otherwise), in both cases leaving the
    network unchanged; on [w0, h0, w1, h1] it adds one padding layer
    with pre-padding (w0, h0) and post-padding (w1, h1): the first two
    and the last two entries, in the order given. *)
Theorem aten_constant_pad_nd_padding
        (ls : list (layer F)) (ts : list (ndarray F)) (x : ITensor)
        (pads : list (value F)) (val : value F) :
  aten_constant_pad_nd [VTrt x; VList pads; val] (mk_state (Some ls) ts)
  = if eq_int val 0 then
      match pads with
      | [w0; h0; w1; h1] =>
          let pad := mk_layer (Padding (VTrt x) [w0; h0] [w1; h1]) [] in
          (Ok [VTrt (mk_ITensor (Some (length ls)) (output_shape pad))],
           mk_state (Some (ls ++ [pad])) ts)
      | _ => (Raise ValueError, mk_state (Some ls) ts)
      end
    else (Raise (AssertionError ""), mk_state (Some ls) ts).
Proof.
  unfold aten_constant_pad_nd, bind, current_network. simpl.
  unfold has_trt_tensor. simpl.
  destruct (eq_int val 0); simpl; [| reflexivity].
  destruct pads as [| w0 [| h0 [| w1 [| h1 [| e pads]]]]]; simpl; try reflexivity.
  run_handler. reflexivity.
Qed.

(** X23. In conversion mode, on an input list that holds a symbolic
    tensor, aten::dropout and aten::contiguous are the identity on their
    first input: they return it as it is and add no layer, whatever the
    dropout rate and the training flag, which are not even read. *)
Theorem dropout_and_contiguous_pass_through
        (ls : list (layer F)) (ts : list (ndarray F)) (inp : value F)
        (rest : list (value F)) :
  has_trt_tensor (inp :: rest) = true ->
  aten_dropout (inp :: rest) (mk_state (Some ls) ts)
  = (Ok [inp], mk_state (Some ls) ts)
  /\ aten_contiguous (inp :: rest) (mk_state (Some ls) ts)
     = (Ok [inp], mk_state (Some ls) ts).
Proof.
  intros Htrt.
  assert (Hget : forall st : state F, getitem (inp :: rest) 0 st = (Ok inp, st)).
  { intros st. apply getitem_in_range; [simpl; lia | reflexivity]. }
  split.
  - unfold aten_dropout, bind, current_network.
    rewrite Hget. cbn [network not_None andb]. rewrite Htrt, Hget. reflexivity.
  - unfold aten_contiguous, bind, current_network.
    cbn [network not_None andb]. rewrite Htrt, Hget. reflexivity.
Qed.

(** X24. Next to a symbolic operand of rank 0 a 0-d real tensor cannot
    be materialized: the reshape to zero axes is a reshape call without
    a shape, which raises TypeError before any layer is added.  So an
    arithmetic handler given a 0-d real tensor on the left of a rank-0
    symbolic operand fails with TypeError and leaves the network as it
    was. *)
Theorem zero_rank_constant_fails
        (ls : list (layer F)) (ts : list (ndarray F)) (x : ITensor) (r : ref)
        (val : ndarray F) :
  ts !! r = Some val ->
  nd_shape val = [] ->
  it_shape x = [] ->
  let st := mk_state (Some ls) ts in
  try_convert_to_constant [VTensor r; VTrt x] st = (Raise TypeError, st)
  /\ aten_sub [VTensor r; VTrt x; VInt 1] st = (Raise TypeError, st)
  /\ aten_div [VTensor r; VTrt x] st = (Raise TypeError, st).
Proof.
  intros Hr Hval Hx st. subst st.
  assert (Hconv : try_convert_to_constant [VTensor r; VTrt x] (mk_state (Some ls) ts)
                  = (Raise TypeError, mk_state (Some ls) ts)).
  { unfold try_convert_to_constant. simpl mapM. unfold bind.
    simpl. rewrite Hr. simpl. rewrite downcast_shape, Hval, Hx. reflexivity. }
  split; [exact Hconv |].
  split.
  - unfold aten_sub, bind, current_network. simpl.
    unfold _scale_or_elementwise, bind. simpl. rewrite Hconv. reflexivity.
  - unfold aten_div, bind, current_network. simpl.
    unfold _scale_or_elementwise, bind. simpl. rewrite Hconv. reflexivity.
Qed.

End MoreProperties.

(** * The handlers on concrete inputs *)

(** Dilation [2, 1] on an empty network: the failed call leaves one
    pooling layer behind. *)
Lemma aten_max_pool2d_fails_after_adding_layer_example :
  aten_max_pool2d
    [VTrt (mk_ITensor None [3; 8; 8]); VList [VInt 2; VInt 2];
     VList [VInt 2; VInt 2]; VList [VInt 0; VInt 0]; VList [VInt 2; VInt 1]]
    (mk_state (F := float) (Some []) [])
  = (Raise (AssertionError "trt pool don't support dilation"),
     mk_state (Some [mk_layer (Pooling (VTrt (mk_ITensor None [3; 8; 8])) MAX
                                       (VList [VInt 2; VInt 2]))
                              [("padding", VList [VInt 0; VInt 0]);
                               ("stride", VList [VInt 2; VInt 2])]])
              []).
Proof.
  apply (aten_max_pool2d_fails_after_adding_layer (F := float) [] []).
  reflexivity.
Defined.



(** Division by a one-element tensor holding 0: the handler succeeds and
    the scale weight is the float32 infinity. *)
Lemma aten_div_reciprocal_unguarded_example :
  let ts := [mk_ndarray float32 [] [0%float]] in
  let w := fun y : float => Weights_of (mk_ndarray float32 [] [y]) in
  aten_div [VTrt example_input; VTensor 0%nat] (mk_state (Some []) ts)
  = (Ok [VTrt (mk_ITensor (Some 0%nat) [3; 8; 8])],
     mk_state (Some [mk_layer (Scale (VTrt example_input) UNIFORM
                                     (w 0%float) (w infinity) (w 1%float)) []])
              ts).
Proof.
  intros ts w.
  exact (aten_div_reciprocal_unguarded
           (F := float) [] ts example_input 0%nat float32 [] 0%float
           eq_refl eq_refl).
Defined.

(** A 1x1 convolution with float64 weight and bias keeps both buffers
    float64, while the same float64 scalar becomes a float32 constant
    and, folded into a scale layer, float32 weights. *)
Lemma weights_keep_tensor_dtype_example :
  let ts := [mk_ndarray float64 [1; 3; 1; 1] [1%float; 2%float; 3%float];
             mk_ndarray float64 [1] [0.5%float];
             mk_ndarray float64 [] [2%float]] in
  let st := mk_state (Some []) ts in
  (exists conv : layer float,
      aten_convolution
        [VTrt example_input; VTensor 0%nat; VTensor 1%nat;
         VList [VInt 1; VInt 1]; VList [VInt 0; VInt 0]; VList [VInt 1; VInt 1];
         VBool false; VList [VInt 0; VInt 0]; VInt 1] st
      = (Ok [VTrt (mk_ITensor (Some 0%nat) (output_shape conv))],
         mk_state (Some [conv]) ts)
      /\ payload_dtypes conv = [float64; float64])
  /\ (exists const : layer float,
         try_convert_to_constant [VTensor 2%nat; VTrt example_input] st
         = (Ok [VTrt (mk_ITensor (Some 0%nat) (output_shape const));
                VTrt example_input],
            mk_state (Some [const]) ts)
         /\ payload_dtypes const = [float32])
  /\ (exists sc : layer float,
         aten_mul [VTrt example_input; VTensor 2%nat] st
         = (Ok [VTrt (mk_ITensor (Some 0%nat) (output_shape sc))],
            mk_state (Some [sc]) ts)
         /\ payload_dtypes sc = [float32; float32; float32]).
Proof.
  intros ts st.
  destruct (weights_keep_tensor_dtype
              (F := float) [] ts example_input 0%nat
              (mk_ndarray float64 [1; 3; 1; 1] [1%float; 2%float; 3%float])
              1 3 1 1 1 (VTensor 1%nat)
              (Weights_of (mk_ndarray float64 [1] [0.5%float]))
              [VInt 1; VInt 1] [VInt 0; VInt 0] [VInt 1; VInt 1]
              [VInt 0; VInt 0] false eq_refl eq_refl eq_refl
              (or_intror (ex_intro _ 1%nat (ex_intro _ _
                 (conj eq_refl (conj eq_refl eq_refl))))))
    as [(conv & Hrun & Hdt) [Hconst Hscale]].
  split; [| split].
  - exists conv. split; [exact Hrun | exact Hdt].
  - destruct (Hconst 2%nat (mk_ndarray float64 [] [2%float]) eq_refl
                ltac:(discriminate))
      as [Hrun' Hdt'].
    eexists. split; [exact Hrun' | exact Hdt'].
  - exact (Hscale 2%nat float64 [] 2%float eq_refl eq_refl).
Defined.

(** C3, as stated, fails: a convolution whose weight and bias are
    float64 tensors gets float64 buffers, not float32 ones. *)
Lemma convolution_keeps_float64_weights :
  let weight := mk_ndarray float64 [1; 3; 1; 1] [1%float; 2%float; 3%float] in
  let bias := mk_ndarray float64 [1] [0.5%float] in
  let ts := [weight; bias] in
  let conv :=
    mk_layer (Convolution (VTrt example_input) 1 [1; 1]
                          (Weights_of weight) (Weights_of bias))
             [("num_groups", VInt 1); ("padding", VList [VInt 0; VInt 0]);
              ("stride", VList [VInt 1; VInt 1]);
              ("dilation", VList [VInt 1; VInt 1])] in
  aten_convolution
    [VTrt example_input; VTensor 0%nat; VTensor 1%nat;
     VList [VInt 1; VInt 1]; VList [VInt 0; VInt 0]; VList [VInt 1; VInt 1];
     VBool false; VList [VInt 0; VInt 0]; VInt 1]
    (mk_state (Some []) ts)
  = (Ok [VTrt (mk_ITensor (Some 0%nat) [3; 8; 8])], mk_state (Some [conv]) ts)
  /\ payload_dtypes conv = [float64; float64]
  /\ forallb (dtype_eqb float32) (payload_dtypes conv) = false.
Proof. repeat split; reflexivity. Qed.

(** ReLU of a real tensor with and without a network, and of a
    symbolic tensor. *)
Lemma relu_conversion_gate_example :
  let a := mk_ndarray float32 [3] [1%float; (-5)%float; 2%float] in
  let a' := mk_ndarray float32 [3] [1%float; 0%float; 2%float] in
  aten_relu [VTensor 0%nat] (mk_state (Some []) [a])
  = (Ok [VTrt (mk_ITensor (Some 0%nat) [])],
     mk_state (Some [mk_layer (Activation (VTensor 0%nat) RELU) []]) [a])
  /\ aten_relu_ [VTrt example_input] (mk_state (Some []) [a])
     = (Ok [VTrt (mk_ITensor (Some 0%nat) [3; 8; 8])],
        mk_state (Some [mk_layer (Activation (VTrt example_input) RELU) []]) [a])
  /\ aten_relu_ [VTensor 0%nat] (mk_state (Some []) [a])
     = (Ok [VTensor 0%nat], mk_state (Some []) [a'])
  /\ aten_relu_ [VTensor 0%nat] (mk_state None [a])
     = (Ok [VTensor 0%nat], mk_state None [a'])
  /\ aten_relu [VTensor 0%nat] (mk_state None [a])
     = (Ok [VTensor 1%nat], mk_state None [a; a']).
Proof.
  intros a a'.
  destruct (relu_conversion_gate (F := float)) as (Hrelu & Hrelu_ & Hin & Hout).
  split; [exact (Hrelu [] [a] (VTensor 0%nat) []) |].
  split; [exact (Hrelu_ [] [a] (VTrt example_input) [] eq_refl) |].
  split; [exact (Hin (Some []) [a] 0%nat [] a a' (or_intror eq_refl) eq_refl eq_refl) |].
  split; [exact (Hin None [a] 0%nat [] a a' (or_introl eq_refl) eq_refl eq_refl) |].
  exact (Hout [a] (VTensor 0%nat) [] a' eq_refl).
Defined.

(** Max over axis 2 of a symbolic tensor, and over the only axis of a
    real vector. *)
Lemma aten_max_outputs_example :
  let a := mk_ndarray float32 [3] [1%float; 5%float; 2%float] in
  aten_max [VTrt example_input; VInt 2; VBool true] (mk_state (Some []) [a])
  = (Ok [VTrt (mk_ITensor (Some 0%nat) [3; 8; 8]); VNone],
     mk_state (Some [mk_layer (Reduce (VTrt example_input) ReduceMAX 2 true) []]) [a])
  /\ aten_max [VTensor 0%nat; VInt 0; VBool false] (mk_state None [a])
     = (Ok [VTensor 1%nat; VTensor 2%nat],
        mk_state None [a; mk_ndarray float32 [] [5%float];
                       mk_ndarray int64 [] [1%float]]).
Proof.
  intros a.
  destruct (aten_max_outputs (F := float)) as [Hconv Hfall].
  split.
  - exact (Hconv [] [a] example_input 2 (VBool true) ltac:(lia)).
  - exact (Hfall None [a] 0%nat (VInt 0) (VBool false) a _ _
             (or_introl eq_refl) eq_refl eq_refl).
Defined.

(** Axes beyond the rank 3 of the input: the sum over axes 2 and 5 and
    the max over axis 5 are accepted and set bit 4. *)
Lemma reduce_axes_have_no_upper_bound_example :
  aten_sum [VTrt example_input; VList [VInt 2; VInt 5]; VBool false]
           (mk_state (F := float) (Some []) [])
  = (Ok [VTrt (mk_ITensor (Some 0%nat) [3; 8; 8])],
     mk_state (Some [mk_layer (Reduce (VTrt example_input) ReduceSUM 18 false) []]) [])
  /\ aten_max [VTrt example_input; VInt 5; VBool false]
              (mk_state (F := float) (Some []) [])
     = (Ok [VTrt (mk_ITensor (Some 0%nat) [3; 8; 8]); VNone],
        mk_state (Some [mk_layer (Reduce (VTrt example_input) ReduceMAX 16 false) []]) [])
  /\ Z.testbit (axes_mask [2; 5]) (5 - 1) = true.
Proof.
  destruct (reduce_axes_have_no_upper_bound (F := float))
    as (_ & Hsum & Hmax & Hbit).
  split.
  { apply (Hsum [] [] example_input [2; 5] (VBool false)).
    repeat constructor; lia. }
  split.
  { apply (Hmax [] [] example_input 5 (VBool false)). lia. }
  apply (Hbit [2; 5] 5); [simpl; tauto | lia].
Defined.

(** C10, as stated, fails: for axis 100 on an input of rank 3 the
    handler succeeds, under the shift of numpy 2 and under that of
    numpy 1 alike, but the mask it passes to the reduce layer is 0, so
    no bit is set at position 99. *)
Lemma axis_beyond_mask_width_sets_no_bit :
  let reduced :=
    (Ok [VTrt (mk_ITensor (Some 0%nat) [3; 8; 8]); @VNone float],
     mk_state (Some [mk_layer (Reduce (VTrt example_input) ReduceMAX 0 true) []]) []) in
  aten_max (np := numpy2) [VTrt example_input; VInt 100; VBool true]
           (mk_state (Some []) [])
  = reduced
  /\ aten_max (np := numpy1) [VTrt example_input; VInt 100; VBool true]
              (mk_state (Some []) [])
     = reduced
  /\ Z.testbit 0 (100 - 1) = false.
Proof. repeat split; reflexivity. Qed.




(** On the example of the specification the two orders of evaluation
    agree: in float32 the shift the handler computes is bit for bit the
    float32 value of -mean * scale + bias. *)
Lemma aten_batch_norm_float32_run :
  let eps := (1 / 100000)%float in
  let ts := [mk_ndarray float32 [1] [1.5%float]; mk_ndarray float32 [1] [0.5%float];
             mk_ndarray float32 [1] [2%float]; mk_ndarray float32 [1] [3%float]] in
  let f32 := round_float32 in
  let scale := f32 (1.5 / f32 (sqrt (f32 (3 + f32 eps))))%float in
  let shift := f32 (f32 (-2 * scale) + 0.5)%float in
  let w := fun y : float => Weights_of (mk_ndarray float32 [1] [y]) in
  aten_batch_norm
    [VTrt example_input; VTensor 0%nat; VTensor 1%nat; VTensor 2%nat;
     VTensor 3%nat; VBool false; VFloat 0.5%float; VFloat eps]
    (mk_state (Some []) ts)
  = (Ok [VTrt (mk_ITensor (Some 0%nat) [3; 8; 8])],
     mk_state (Some [mk_layer (Scale (VTrt example_input) CHANNEL
                                     (w shift) (w scale) (w 1%float)) []])
              ts).
Proof. vm_compute. reflexivity. Qed.

(** * Further runs on concrete inputs *)

(** The mask of axes 1 and 3 is 0b101. *)
Lemma axes_mask_characterised_example :
  _axes_to_trt_axis (F := float) [VInt 1; VInt 3] 3 (mk_state None [])
  = (Ok 5, mk_state None [])
  /\ 0 <= axes_mask [1; 3] < 2 ^ 32.
Proof.
  destruct (axes_mask_characterised (F := float) [1; 3] 3 (mk_state None [])
              ltac:(repeat constructor; lia)) as (Hrun & Hbound & _).
  split; [exact Hrun | exact Hbound].
Defined.

(** A sum over axes 2 and 0, and a max over axis 0. *)
Lemma reductions_reject_nonpositive_axis_example :
  aten_sum [VTrt example_input; VList [VInt 2; VInt 0]; VBool false]
           (mk_state (F := float) (Some []) [])
  = (Raise (AssertionError ""), mk_state (Some []) [])
  /\ aten_max [VTrt example_input; VInt 0; VBool false]
              (mk_state (F := float) (Some []) [])
     = (Raise (AssertionError ""), mk_state (Some []) []).
Proof.
  destruct (reductions_reject_nonpositive_axis (F := float) [] [] example_input
              [2; 0] 0 (VBool false)
              ltac:(apply Exists_cons_tl, Exists_cons_hd; lia) ltac:(lia))
    as [(e & Hrun & He) Hmax].
  rewrite (He ltac:(repeat constructor; lia)) in Hrun.
  split; [exact Hrun | exact Hmax].
Defined.

(** x[:, :, 1:5] on the input of shape (3, 8, 8). *)
Lemma aten_slice_positive_axis_example :
  aten_slice (TensorRT0 := sliced_trt)
    [VTrt example_input; VInt 2; VInt 1; VInt 5; VInt 1]
    (mk_state (F := float) (Some []) [])
  = (Ok [VTrt (mk_ITensor (Some 0%nat) [3; 4; 8])],
     mk_state (Some [mk_layer (Slice (VTrt example_input) [0; 1; 0] [3; 4; 8]
                                     [1; 1; 1]) []]) []).
Proof.
  exact (proj1 (aten_slice_positive_axis (F := float) (TensorRT0 := sliced_trt)
                  [] [] example_input 2 1 5 8 ltac:(lia) eq_refl)).
Defined.

(** A slice along axis 4 of the input of rank 3. *)
Lemma aten_slice_axis_beyond_rank_example :
  aten_slice [VTrt example_input; VInt 4; VInt 0; VInt 1; VInt 1]
             (mk_state (F := float) (Some []) [])
  = (Raise IndexError, mk_state (Some []) []).
Proof.
  exact (aten_slice_axis_beyond_rank (F := float) [] [] example_input 4 0 1
           ltac:(simpl; lia)).
Defined.

(** unsqueeze(2) on the input of shape (3, 8, 8). *)
Lemma aten_unsqueeze_inserts_unit_axis_example :
  exists shape : list Z,
    aten_unsqueeze [VTrt example_input; VInt 2] (mk_state (F := float) (Some []) [])
    = (Ok [VTrt (mk_ITensor (Some 0%nat) shape)],
       mk_state (Some [mk_layer (Shuffle (VTrt example_input))
                                [("reshape_dims",
                                  VList [VInt 3; VInt 1; VInt 8; VInt 8])]]) []).
Proof.
  eexists.
  exact (proj1 (aten_unsqueeze_inserts_unit_axis (F := float) [] []
                  example_input 2 ltac:(lia))).
Defined.

(** x[:, :, 3] on the input of shape (3, 8, 8). *)
Lemma aten_select_slices_then_squeezes_example :
  exists shape : list Z,
    aten_select (TensorRT0 := sliced_trt)
      [VTrt example_input; VInt 2; VInt 3] (mk_state (F := float) (Some []) [])
    = (Ok [VTrt (mk_ITensor (Some 1%nat) shape)],
       mk_state
         (Some [mk_layer (Slice (VTrt example_input) [0; 3; 0] [3; 1; 8] [1; 1; 1]) [];
                mk_layer (Shuffle (VTrt (mk_ITensor (Some 0%nat) [3; 1; 8])))
                         [("reshape_dims", VList [VInt 3; VInt 8])]]) []).
Proof.
  eexists.
  exact (proj1 (aten_select_slices_then_squeezes
                  (F := float) (TensorRT0 := sliced_trt)
                  [] [] example_input 2 3 8
                  (fun _ _ _ _ => eq_refl) ltac:(lia) eq_refl ltac:(lia))).
Defined.

(** x[:, :, 9] on the input of shape (3, 8, 8): the slice layer of
    extent 8 - 9 stays behind. *)
Lemma aten_select_index_out_of_range_example :
  aten_select (TensorRT0 := sliced_trt)
    [VTrt example_input; VInt 2; VInt 9] (mk_state (F := float) (Some []) [])
  = (Raise (AssertionError ""),
     mk_state (Some [mk_layer (Slice (VTrt example_input) [0; 9; 0] [3; -1; 8]
                                     [1; 1; 1]) []]) []).
Proof.
  exact (aten_select_index_out_of_range (F := float) (TensorRT0 := sliced_trt)
           [] [] example_input 2 9 8
           (fun _ _ _ _ => eq_refl) ltac:(lia) eq_refl ltac:(lia)).
Defined.

(** permute(0, 3, 1, 2) *)
Lemma aten_permute_transpose_order_example :
  exists shape : list Z,
    aten_permute [VTrt example_input; VList [VInt 0; VInt 3; VInt 1; VInt 2]]
                 (mk_state (F := float) (Some []) [])
    = (Ok [VTrt (mk_ITensor (Some 0%nat) shape)],
       mk_state (Some [mk_layer (Shuffle (VTrt example_input))
                                [("first_transpose",
                                  VList [VInt 2; VInt 0; VInt 1])]]) []).
Proof.
  eexists.
  exact (proj1 (aten_permute_transpose_order (F := float) [] [] example_input
                  (VInt 0) [3; 1; 2] 3
                  ltac:(eapply perm_trans;
                        [apply perm_swap | apply perm_skip, perm_swap]))).
Defined.

(** permute(1, 0, 2, 3) *)
Lemma aten_permute_rejects_moved_batch_axis_example :
  aten_permute [VTrt example_input; VList [VInt 1; VInt 0; VInt 2; VInt 3]]
               (mk_state (F := float) (Some []) [])
  = (Raise (AssertionError ""), mk_state (Some []) []).
Proof.
  exact (aten_permute_rejects_moved_batch_axis (F := float) [] [] example_input
           (VInt 1) [0; 2; 3] ltac:(apply Exists_cons_hd; lia)).
Defined.

(** cat((x, x), 1) *)
Lemma aten_cat_axis_example :
  exists shape : list Z,
    aten_cat [VList [VTrt example_input; VTrt example_input]; VInt 1]
             (mk_state (F := float) (Some []) [])
    = (Ok [VTrt (mk_ITensor (Some 0%nat) shape)],
       mk_state (Some [mk_layer (Concatenation
                                   (VList [VTrt example_input; VTrt example_input]))
                                [("axis", VInt 0)]]) []).
Proof.
  eexists.
  exact (aten_cat_axis (F := float) [] [] [VTrt example_input; VTrt example_input]
           1 eq_refl).
Defined.

(** x * w for a real w of shape (3, 1, 1). *)
Lemma elementwise_materializes_larger_tensor_example :
  let w := mk_ndarray float32 [3; 1; 1] [1%float; 2%float; 3%float] in
  aten_mul [VTrt example_input; VTensor 0%nat] (mk_state (Some []) [w])
  = (Ok [VTrt (mk_ITensor (Some 1%nat) [3; 8; 8])],
     mk_state
       (Some [mk_layer (Constant [3; 1; 1] (Weights_of w)) [];
              mk_layer (ElementWise (VTrt example_input)
                                    (VTrt (mk_ITensor (Some 0%nat) [3; 1; 1])) PROD) []])
       [w]).
Proof.
  intros w.
  exact (proj1 (proj2 (proj2 (proj2
           (elementwise_materializes_larger_tensor (F := float) [] [w]
              example_input 0%nat w eq_refl ltac:(discriminate)))))).
Defined.

(** add(x, x, alpha=2), in conversion mode and outside it. *)
Lemma add_sub_require_unit_alpha_example :
  aten_add [VTrt example_input; VTrt example_input; VInt 2]
           (mk_state (F := float) (Some []) [])
  = (Raise (AssertionError ""), mk_state (Some []) [])
  /\ aten_sub [VTrt example_input; VTrt example_input; VInt 2]
              (mk_state (F := float) None [])
     = (Raise (AssertionError ""), mk_state None []).
Proof.
  split.
  - exact (proj1 (add_sub_require_unit_alpha (F := float) (mk_state (Some []) [])
                    (VTrt example_input) (VTrt example_input) (VInt 2) eq_refl)).
  - exact (proj2 (proj2 (add_sub_require_unit_alpha (F := float) (mk_state None [])
                    (VTrt example_input) (VTrt example_input) (VInt 2) eq_refl))).
Defined.

(** x + 2.5 with a 0-d float64 tensor and a Python number: one constant,
    of type float32 and shape (1, 1, 1). *)
Lemma try_convert_to_constant_invariant_example :
  let ts := [mk_ndarray float64 [] [2.5%float]] in
  let inputs := [VTrt example_input; VTensor 0%nat; VFloat 2%float] in
  exists (outs : list (value float)) (new : list (layer float)),
    try_convert_to_constant inputs (mk_state (Some []) ts)
    = (Ok outs, mk_state (Some ([] ++ new)) ts)
    /\ length outs = 3%nat
    /\ Forall (fun v => is_tensor v = false) outs
    /\ (forall (i : nat) (v : value float),
          inputs !! i = Some v -> is_tensor v = false -> outs !! i = Some v)
    /\ length new = 1%nat
    /\ Forall (fun l => exists a : ndarray float,
                          l_call l = Constant (nd_shape a) (Weights_of a)
                          /\ nd_dtype a <> float64) new.
Proof.
  intros ts inputs.
  refine (try_convert_to_constant_invariant (F := float) [] ts inputs [3; 8; 8]
            eq_refl ltac:(discriminate) _).
  repeat constructor; intros r Hr; try discriminate.
  injection Hr as <-. exists (mk_ndarray float64 [] [2.5%float]). reflexivity.
Defined.

(** A transposed convolution with output padding (1, 0). *)
Lemma aten_convolution_rejections_example :
  let w := mk_ndarray float32 [4; 3; 3; 3] (repeat 1%float 108) in
  aten_convolution
    [VTrt example_input; VTensor 0%nat; VNone; VList [VInt 1; VInt 1];
     VList [VInt 0; VInt 0]; VList [VInt 1; VInt 1]; VBool true;
     VList [VInt 1; VInt 0]; VInt 1]
    (mk_state (Some []) [w])
  = (Raise (AssertionError "tensor rt don't support out padding"),
     mk_state (Some []) [w]).
Proof.
  intros w.
  exact (aten_convolution_rejections (F := float) [] [w] example_input 0%nat w
           4 3 1 [3; 3] VNone [VInt 1; VInt 1] [VInt 0; VInt 0] [VInt 1; VInt 1]
           [VInt 1; VInt 0] true eq_refl eq_refl (or_introl eq_refl)).
Defined.

(** The target (9, 4) on the extents (8, 8). *)
Lemma aten_adaptive_avg_pool2d_zero_division_example :
  aten_adaptive_avg_pool2d [VTrt example_input; VList [VInt 9; VInt 4]]
                           (mk_state (F := float) (Some []) [])
  = (Raise ZeroDivisionError, mk_state (Some []) []).
Proof.
  exact (aten_adaptive_avg_pool2d_zero_division (F := float) [] [] None 3 8 8 9 4
           ltac:(lia) ltac:(lia) ltac:(lia) ltac:(lia)
           ltac:(right; right; left; lia)).
Defined.

(** The target (4, 2) on the extents (8, 8): kernel (2, 4). *)
Lemma aten_adaptive_avg_pool2d_divisible_example :
  aten_adaptive_avg_pool2d [VTrt example_input; VList [VInt 4; VInt 2]]
                           (mk_state (F := float) (Some []) [])
  = (Ok [VTrt (mk_ITensor (Some 0%nat) [3; 8; 8])],
     mk_state (Some [mk_layer (Pooling (VTrt example_input) AVERAGE
                                       (VList [VInt 2; VInt 4])) []]) []).
Proof.
  exact (proj1 (aten_adaptive_avg_pool2d_divisible (F := float) [] [] None 3 8 8 4 2
                  ltac:(lia) ltac:(lia) ltac:(lia) ltac:(lia) eq_refl eq_refl)).
Defined.

(** addmm(bias, x, mat2) with mat2 of shape (3, 2): the kernel is the
    (2, 3) transpose and the layer has 2 outputs. *)
Lemma aten_addmm_fully_connected_example :
  let bias := mk_ndarray float32 [2] [0.5%float; 1.5%float] in
  let mat2 := mk_ndarray float32 [3; 2]
                [1%float; 2%float; 3%float; 4%float; 5%float; 6%float] in
  let wt := mk_ndarray float32 [2; 3]
              [1%float; 3%float; 5%float; 2%float; 4%float; 6%float] in
  let x := mk_ITensor None [3; 1; 1] in
  exists shape : list Z,
    aten_addmm (Torch0 := transposing_torch)
      [VTensor 0%nat; VTrt x; VTensor 1%nat; VInt 1; VInt 1]
      (mk_state (Some []) [bias; mat2])
    = (Ok [VTrt (mk_ITensor (Some 0%nat) shape)],
       mk_state (Some [mk_layer (FullyConnected (VTrt x) 2 (Weights_of wt)
                                                (Weights_of bias)) []])
                [bias; mat2; wt]).
Proof.
  intros bias mat2 wt x. eexists.
  exact (aten_addmm_fully_connected (F := float) (Torch0 := transposing_torch)
           [] [bias; mat2] x 0%nat 1%nat bias wt 2 [3]
           eq_refl eq_refl eq_refl eq_refl).
Defined.

(** addmm with beta = 2. *)
Lemma aten_addmm_rejections_example :
  let bias := mk_ndarray float32 [2] [0.5%float; 1.5%float] in
  aten_addmm [VTensor 0%nat; VTrt example_input; VTensor 1%nat; VInt 2; VInt 1]
             (mk_state (Some []) [bias])
  = (Raise (AssertionError ""), mk_state (Some []) [bias]).
Proof.
  intros bias.
  exact (aten_addmm_rejections (F := float) [] [bias] example_input 0%nat bias
           (VTensor 1%nat) (VInt 2) (VInt 1) eq_refl (or_introl eq_refl)).
Defined.

(** Dropout in training mode on a symbolic input. *)
Lemma dropout_and_contiguous_pass_through_example :
  aten_dropout [VTrt example_input; VFloat 0.5%float; VBool true]
               (mk_state (Some []) [])
  = (Ok [VTrt example_input], mk_state (Some []) [])
  /\ aten_contiguous [VTrt example_input] (mk_state (F := float) (Some []) [])
     = (Ok [VTrt example_input], mk_state (Some []) []).
Proof.
  split.
  - exact (proj1 (dropout_and_contiguous_pass_through (F := float) [] []
                    (VTrt example_input) [VFloat 0.5%float; VBool true] eq_refl)).
  - exact (proj2 (dropout_and_contiguous_pass_through (F := float) [] []
                    (VTrt example_input) [] eq_refl)).
Defined.

(** A 0-d tensor minus a symbolic tensor of rank 0. *)
Lemma zero_rank_constant_fails_example :
  let ts := [mk_ndarray float32 [] [2%float]] in
  let x := mk_ITensor None [] in
  aten_sub [VTensor 0%nat; VTrt x; VInt 1] (mk_state (Some []) ts)
  = (Raise TypeError, mk_state (Some []) ts).
Proof.
  intros ts x.
  exact (proj1 (proj2 (zero_rank_constant_fails (F := float) [] ts x 0%nat
                         (mk_ndarray float32 [] [2%float])
                         eq_refl eq_refl eq_refl))).
Defined.
